(** * llm/llama.go: the llama.cpp runner supervisor and its HTTP client

    A shallow embedding of [llm/llama.go] (package [llm]).  The Go code
    talks to three things it does not own: the operating system (files,
    random numbers, the clock, the subprocess), the HTTP server of the
    subprocess, and the caller (its context and its callback).  Each of
    them appears here as an explicit oracle that a function receives,
    and everything observable a function does (a request sent, a
    callback invoked, a process spawned or closed) is written to a trace
    of events, in order.  Calls to [log.Print] are not traced. *)

From Stdlib Require Import String Ascii ZArith List Bool Lia Arith.
From Stdlib Require Import DecimalString.
Import ListNotations.

Local Open Scope string_scope.
Local Open Scope Z_scope.

(** ** Go values *)

(** A Go [error].  [errorString] is what [errors.New] and a
    [fmt.Errorf] without [%w] build; [wrapError] is a [fmt.Errorf] with
    [%w], which keeps the wrapped error; the two context errors are the
    sentinels [ctx.Err()] returns. *)
Inductive error : Type :=
| Canceled
| DeadlineExceeded
| errorString (msg : string)
| wrapError (msg : string) (inner : error).

Definition Error (e : error) : string :=
  match e with
  | Canceled => "context canceled"
  | DeadlineExceeded => "context deadline exceeded"
  | errorString msg => msg
  | wrapError msg _ => msg
  end.

(** [fmt.Errorf(prefix + "%v", err)] and [fmt.Errorf(prefix + "%w", err)]. *)
Definition Errorf_v (prefix : string) (err : error) : error :=
  errorString (prefix ++ Error err).

Definition Errorf_w (prefix : string) (err : error) : error :=
  wrapError (prefix ++ Error err) err.

(** [fmt.Errorf("%s", body)]. *)
Definition Errorf_s (body : string) : error := errorString body.

(** A Go pair [(value, error)]: either the value or a non-nil error. *)
Inductive result (A : Type) : Type :=
| Ok (a : A)
| Err (e : error).
Arguments Ok {A} a.
Arguments Err {A} e.

(** [fmt.Sprintf("%d", n)] and [strconv.Itoa(n)]. *)
Definition Itoa (n : Z) : string := NilZero.string_of_int (Z.to_int n).

(** IEEE values are carried around by their bits and never computed on. *)
Record float32 : Type := { bits32 : Z }.
Record float64 : Type := { bits64 : Z }.

(** [strings.HasPrefix] and the slice [s[n:]]. *)
Definition HasPrefix (s pre : string) : bool := String.prefix pre s.

Definition SliceFrom (s : string) (n : nat) : string :=
  substring n (String.length s - n) s.

(** [strings.CutPrefix]:
    [if !HasPrefix(s, prefix) { return s, false }; return s[len(prefix):], true]. *)
Definition CutPrefix (s pre : string) : string * bool :=
  if HasPrefix s pre then (SliceFrom s (String.length pre), true)
  else (s, false).

(** ** The structs of the package, and those of package [api] it uses *)

(** [api.Options], the fields [llama.go] reads. *)
Record Options : Type := {
  NumCtx : Z;
  RopeFrequencyBase : float32;
  RopeFrequencyScale : float32;
  NumBatch : Z;
  NumGPU_opt : Z;   (* the field [NumGPU]; the function below has the name *)
  NumGQA : Z;
  NumThread : Z;
  F16KV : bool;
  UseMLock : bool;
  UseMMap : bool;
  UseNUMA : bool;
  NumPredict : Z;
  NumKeep : Z;
  Temperature : float32;
  TopK : Z;
  TopP : float32;
  TFSZ : float32;
  TypicalP : float32;
  RepeatLastN : Z;
  RepeatPenalty : float32;
  PresencePenalty : float32;
  FrequencyPenalty : float32;
  Mirostat : Z;
  MirostatTau : float32;
  MirostatEta : float32;
  PenalizeNewline : bool;
  Stop : list string
}.

(** [api.GenerateResponse], the fields [Predict] sets; the others keep
    their zero value. *)
Record GenerateResponse : Type := {
  Response : string;
  Done : bool;
  Context : list Z;
  PromptEvalCount : Z;
  PromptEvalDuration : Z;
  EvalCount : Z;
  EvalDuration : Z
}.

Record Timings : Type := {
  PredictedN : Z;
  PredictedMS : float64;
  PromptN : Z;
  PromptMS : float64
}.

Record Prediction : Type := {
  p_Content : string;
  p_Model : string;
  p_Prompt : string;
  p_Stop : bool;
  p_Timings : Timings
}.

(** [PredictRequest], with the fields [Predict] fills in. *)
Record PredictRequest : Type := {
  r_Prompt : string;
  r_Stream : bool;
  r_NPredict : Z;
  r_NKeep : Z;
  r_Temperature : float32;
  r_TopK : Z;
  r_TopP : float32;
  r_TfsZ : float32;
  r_TypicalP : float32;
  r_RepeatLastN : Z;
  r_RepeatPenalty : float32;
  r_PresencePenalty : float32;
  r_FrequencyPenalty : float32;
  r_Mirostat : Z;
  r_MirostatTau : float32;
  r_MirostatEta : float32;
  r_PenalizeNl : bool;
  r_Stop : list string
}.

Record TokenizeRequest : Type := { tq_Content : string }.
Record TokenizeResponse : Type := { ts_Tokens : list Z }.
Record DetokenizeRequest : Type := { dq_Tokens : list Z }.
Record DetokenizeResponse : Type := { ds_Content : string }.
Record EmbeddingResponse : Type := { es_Embedding : list float64 }.

(** ** What the code does not own *)

(** [encoding/json] on the structs above.  [json.Marshal] and
    [json.Unmarshal] are not part of the package; the functions below
    are stated for every implementation of this interface. *)
Class Json : Type := {
  Marshal_PredictRequest : PredictRequest -> result string;
  Marshal_TokenizeRequest : TokenizeRequest -> result string;
  Marshal_DetokenizeRequest : DetokenizeRequest -> result string;
  Unmarshal_Prediction : string -> result Prediction;
  Unmarshal_TokenizeResponse : string -> result TokenizeResponse;
  Unmarshal_DetokenizeResponse : string -> result DetokenizeResponse;
  Unmarshal_EmbeddingResponse : string -> result EmbeddingResponse
}.

(** A [context.Context] as the code observes it: [ctx_Done i] tells
    whether the channel [ctx.Done()] is ready at the [i]-th [select] of
    the call, and [ctx_Err] is what [ctx.Err()] then returns. *)
Record GoContext : Type := {
  ctx_Done : nat -> bool;
  ctx_Err : error
}.

(** An HTTP request as the code builds it. *)
Record Request : Type := {
  q_Ctx : GoContext;
  q_Method : string;
  q_URL : string;
  q_ContentType : string;
  q_Body : string
}.

(** A response body, by what each of the two readers the code puts on
    it observes: [io.ReadAll], and a [bufio.Scanner] (the lines its
    successive [Scan] calls deliver, then what [scanner.Err()] says once
    [Scan] has returned false; [None] is a clean end of file). *)
Record Body : Type := {
  io_ReadAll : result string;
  scan_Lines : list string;
  scan_Err : option error
}.

(** What [http.NewRequestWithContext] followed by
    [http.DefaultClient.Do] comes to. *)
Inductive HttpOutcome : Type :=
| NewRequestFails (e : error)
| DoFails (e : error)
| Responds (StatusCode : Z) (body : Body).

(** The subprocess's HTTP server, as seen from one call: every request a
    call sends goes to a different endpoint, so a function of the
    request describes any server. *)
Definition Server : Type := Request -> HttpOutcome.

(** ** Effects: a trace of events, and errors *)

Inductive Event : Type :=
| Sent (q : Request)                    (* a request handed to [Do] *)
| Called (g : GenerateResponse)        (* the callback [fn] invoked *)
| Started (port : Z) (argv : list string) (* [cmd.Start()] called *)
| Closed (port : Z).                    (* [llm.Close()] *)

(** A computation returns a Go pair and the events it produced. *)
Definition M (A : Type) : Type := result A * list Event.

Definition ret {A} (a : A) : M A := (Ok a, []).
Definition fail {A} (e : error) : M A := (Err e, []).
Definition emit (ev : Event) : M unit := (Ok tt, [ev]).

Definition bind {A B} (m : M A) (f : A -> M B) : M B :=
  match m with
  | (Ok a, t) => let '(r, t') := f a in (r, (t ++ t')%list)
  | (Err e, t) => (Err e, t)
  end.

(** [lift r wrap]: take a Go pair from a library call, and on an error
    return [wrap err]. *)
Definition lift {A} (r : result A) (wrap : error -> error) : M A :=
  match r with
  | Ok a => ret a
  | Err e => fail (wrap e)
  end.

Notation "x <- m ;; k" := (bind m (fun x => k))
  (at level 61, m at next level, right associativity).
Notation "m ;;; k" := (bind m (fun _ => k))
  (at level 61, right associativity).

(** The callbacks of a trace, in order. *)
Fixpoint callbacks (t : list Event) : list GenerateResponse :=
  match t with
  | [] => []
  | Called g :: t' => g :: callbacks t'
  | _ :: t' => callbacks t'
  end.

(** The requests of a trace, in order. *)
Fixpoint requests (t : list Event) : list Request :=
  match t with
  | [] => []
  | Sent q :: t' => q :: requests t'
  | _ :: t' => requests t'
  end.

(** Replace the error of a computation, as in
    [if err != nil { return fmt.Errorf("...: %v", err) }]. *)
Definition mapErr {A} (wrap : error -> error) (m : M A) : M A :=
  match m with
  | (Ok a, t) => (Ok a, t)
  | (Err e, t) => (Err (wrap e), t)
  end.

(** ** The running server: [Running] and [llama] *)

(** [llama] embeds [api.Options] and [Running]; [Cmd] is kept as the
    program path and its arguments, [Cancel] has no content. *)
Record llama : Type := {
  l_Options : Options;
  Port : Z;
  Cmd_Path : string;
  Cmd_Args : list string
}.

Definition application_json : string := "application/json".
Definition MethodPost : string := "POST".

(** A [GenerateResponse] literal that sets [Response] only. *)
Definition partial_response (content : string) : GenerateResponse :=
  {| Response := content; Done := false; Context := [];
     PromptEvalCount := 0; PromptEvalDuration := 0;
     EvalCount := 0; EvalDuration := 0 |}.

(** The request [http.NewRequestWithContext(ctx, http.MethodPost,
    endpoint, bytes.NewBuffer(data))] builds, with its [Content-Type]. *)
Definition post_request (ctx : GoContext) (endpoint data : string) : Request :=
  {| q_Ctx := ctx; q_Method := MethodPost; q_URL := endpoint;
     q_ContentType := application_json; q_Body := data |}.

(** The endpoint [fmt.Sprintf("http://127.0.0.1:%d" + route, llm.Port)]. *)
Definition endpoint_of (llm : llama) (route : string) : string :=
  "http://127.0.0.1:" ++ Itoa (Port llm) ++ route.

Section Client.

Context {json : Json}.

(** The server of the subprocess. *)
Variable srv : Server.

(** [parseDurationMs] is a function of package [llm] defined outside
    [llama.go]; it turns milliseconds into a [time.Duration]. *)
Variable parseDurationMs : float64 -> Z.

(** [http.NewRequestWithContext], the [Content-Type] header, then
    [http.DefaultClient.Do], each with the error the caller makes of a
    failure. *)
Definition post (ctx : GoContext) (endpoint data : string)
    (wrapNew wrapDo : error -> error) : M (Z * Body) :=
  let req := post_request ctx endpoint data in
  match srv req with
  | NewRequestFails e => fail (wrapNew e)
  | DoFails e => emit (Sent req) ;;; fail (wrapDo e)
  | Responds code body => emit (Sent req) ;;; ret (code, body)
  end.

Definition Encode (llm : llama) (ctx : GoContext) (prompt : string)
    : M (list Z) :=
  let endpoint := endpoint_of llm "/tokenize" in
  data <- lift (Marshal_TokenizeRequest {| tq_Content := prompt |})
               (Errorf_w "marshaling encode data: ") ;;
  resp <- post ctx endpoint data
               (Errorf_w "encode request: ")
               (Errorf_w "do encode request: ") ;;
  body <- lift (io_ReadAll (snd resp)) (Errorf_w "read encode request: ") ;;
  if fst resp >=? 400 then fail (Errorf_s body)
  else
    encoded <- lift (Unmarshal_TokenizeResponse body)
                    (Errorf_w "unmarshal encode response: ") ;;
    ret (ts_Tokens encoded).

Definition Decode (llm : llama) (ctx : GoContext) (tokens : list Z)
    : M string :=
  if (length tokens =? 0)%nat then ret ""
  else
    let endpoint := endpoint_of llm "/detokenize" in
    data <- lift (Marshal_DetokenizeRequest {| dq_Tokens := tokens |})
                 (Errorf_w "marshaling decode data: ") ;;
    resp <- post ctx endpoint data
                 (Errorf_w "decode request: ")
                 (Errorf_w "do decode request: ") ;;
    body <- lift (io_ReadAll (snd resp)) (Errorf_w "read decode request: ") ;;
    if fst resp >=? 400 then fail (Errorf_s body)
    else
      decoded <- lift (Unmarshal_DetokenizeResponse body)
                      (Errorf_w "unmarshal encode response: ") ;;
      (* decoded content contains a leading whitespace *)
      let content := fst (CutPrefix (ds_Content decoded) "") in
      ret content.

Definition Embedding (llm : llama) (ctx : GoContext) (input : string)
    : M (list float64) :=
  let endpoint := endpoint_of llm "/embedding" in
  data <- lift (Marshal_TokenizeRequest {| tq_Content := input |})
               (Errorf_w "error marshaling embed data: ") ;;
  resp <- post ctx endpoint data
               (Errorf_w "error creating embed request: ")
               (Errorf_w "POST embedding: ") ;;
  body <- lift (io_ReadAll (snd resp)) (Errorf_w "error reading embed response: ") ;;
  if fst resp >=? 400 then fail (Errorf_s body)
  else
    embedding <- lift (Unmarshal_EmbeddingResponse body)
                      (Errorf_w "unmarshal tokenize response: ") ;;
    ret (es_Embedding embedding).

(** The final [GenerateResponse] of [Predict]. *)
Definition final_response (embd : list Z) (p : Prediction) : GenerateResponse :=
  {| Response := ""; Done := true; Context := embd;
     PromptEvalCount := PromptN (p_Timings p);
     PromptEvalDuration := parseDurationMs (PromptMS (p_Timings p));
     EvalCount := PredictedN (p_Timings p);
     EvalDuration := parseDurationMs (PredictedMS (p_Timings p)) |}.

(** The loop [for scanner.Scan() { select { ... } }] of [Predict], from
    its [i]-th iteration on, with [lines] still to be delivered and
    [nextContext] the text written to the builder so far.  The value is
    [true] when the loop body executed [return nil], [false] when
    [Scan] returned false; an error is a [return err] of the body. *)
Fixpoint scanLoop (llm : llama) (ctx : GoContext) (i : nat)
    (lines : list string) (nextContext : string) : M bool :=
  match lines with
  | [] => ret false
  | line :: rest =>
      if ctx_Done ctx i then
        (* This handles the request cancellation *)
        fail (ctx_Err ctx)
      else if String.eqb line "" then scanLoop llm ctx (S i) rest nextContext
      else if HasPrefix line "data: " then
        let evt := SliceFrom line 6 in
        p <- lift (Unmarshal_Prediction evt)
                  (Errorf_v "error unmarshaling llm prediction response: ") ;;
        emit (Called (partial_response (p_Content p))) ;;;
        let nextContext := nextContext ++ p_Content p in
        if p_Stop p then
          embd <- mapErr (Errorf_v "encoding context: ")
                         (Encode llm ctx nextContext) ;;
          emit (Called (final_response embd p)) ;;;
          ret true
        else scanLoop llm ctx (S i) rest nextContext
      else scanLoop llm ctx (S i) rest nextContext
  end.

Definition predict_request (llm : llama) (prompt : string) : PredictRequest :=
  let o := l_Options llm in
  {| r_Prompt := prompt;
     r_Stream := true;
     r_NPredict := NumPredict o;
     r_NKeep := NumKeep o;
     r_Temperature := Temperature o;
     r_TopK := TopK o;
     r_TopP := TopP o;
     r_TfsZ := TFSZ o;
     r_TypicalP := TypicalP o;
     r_RepeatLastN := RepeatLastN o;
     r_RepeatPenalty := RepeatPenalty o;
     r_PresencePenalty := PresencePenalty o;
     r_FrequencyPenalty := FrequencyPenalty o;
     r_Mirostat := Mirostat o;
     r_MirostatTau := MirostatTau o;
     r_MirostatEta := MirostatEta o;
     r_PenalizeNl := PenalizeNewline o;
     r_Stop := Stop o |}.

Definition Predict (llm : llama) (ctx : GoContext) (prevContext : list Z)
    (prompt : string) : M unit :=
  prevConvo <- Decode llm ctx prevContext ;;
  let nextContext := prevConvo ++ prompt in
  let endpoint := endpoint_of llm "/completion" in
  data <- lift (Marshal_PredictRequest (predict_request llm nextContext))
               (Errorf_v "error marshaling data: ") ;;
  resp <- post ctx endpoint data
               (Errorf_v "error creating POST request: ")
               (Errorf_v "POST predict: ") ;;
  if fst resp >=? 400 then
    bodyBytes <- lift (io_ReadAll (snd resp))
                      (Errorf_w "failed reading llm error response: ") ;;
    fail (Errorf_s bodyBytes)
  else
    returned <- scanLoop llm ctx 0 (scan_Lines (snd resp)) nextContext ;;
    if (returned : bool) then ret tt
    else
      match scan_Err (snd resp) with
      | Some err => fail (Errorf_v "error reading llm response: " err)
      | None => ret tt
      end.

End Client.

(** ** The supervisor: [newLlama], [waitForServer], [Ping], [Close] *)

Record ModelRunner : Type := { Path : string }.

(** What [http.Head] comes to. *)
Inductive HeadOutcome : Type :=
| HeadFails (e : error)
| HeadResponds (StatusCode : Z) (Status : string).

(** The operating system as [newLlama] meets it.  The loop of [newLlama]
    numbers its attempts ([try]), and the ticker of [waitForServer] its
    ticks; the oracles are indexed by both.  Times are in nanoseconds,
    the unit of [time.Duration]. *)
Record Host : Type := {
  (* [os.Stat(name)]: the error, [None] when the file is there *)
  os_Stat : string -> option error;
  (* the non-negative number the [try]-th [rand.Intn] reduces *)
  rand_Int63 : nat -> Z;
  (* [cmd.Start()] of attempt [try], on a path and arguments *)
  cmd_Start : nat -> string -> list string -> option error;
  (* the [time.Now()] of attempt [try] that [expiresAt] is computed from *)
  time_Now_begin : nat -> Z;
  (* the [time.Now()] read at tick [i] of attempt [try] *)
  time_Now_tick : nat -> nat -> Z;
  (* [http.Head(url)] at tick [i] of attempt [try] *)
  http_Head : nat -> nat -> string -> HeadOutcome
}.

Definition Millisecond : Z := 1000000.
Definition Second : Z := 1000 * Millisecond.
Definition StatusOK : Z := 200.

(** [rand.Intn(n)], for [n > 0]: a number of the half-open [0, n). *)
Definition rand_Intn (h : Host) (try : nat) (n : Z) : Z := rand_Int63 h try mod n.

Definition NumGPU (opts : Options) : Z := 48.

Section Supervisor.

(** [fmt.Sprintf("%f", x)] on a [float32]. *)
Variable Sprintf_f : float32 -> string.

Variable h : Host.

(** [Ping] at tick [i] of attempt [try]. *)
Definition Ping (llm : llama) (try i : nat) : option error :=
  match http_Head h try i ("http://127.0.0.1:" ++ Itoa (Port llm)) with
  | HeadFails err => Some (Errorf_w "ping resp: " err)
  | HeadResponds code status =>
      if negb (code =? StatusOK)
      then Some (errorString ("unexpected ping status: " ++ status))
      else None
  end.

(** The loop [for range ticker.C] of [waitForServer] from tick [i] on.
    The ticker never stops by itself, so the loop is run for at most
    [fuel] ticks; [None] says that it is still waiting then. *)
Fixpoint waitTicks (llm : llama) (try : nat) (expiresAt : Z) (fuel i : nat)
    : option (option error) :=
  match fuel with
  | O => None
  | S fuel' =>
      if time_Now_tick h try i >? expiresAt then
        Some (Some (errorString
          "llama.cpp server did not start within alloted time, retrying"))
      else
        match Ping llm try i with
        | None => Some None
        | Some _ => waitTicks llm try expiresAt fuel' (S i)
        end
  end.

Definition waitForServer (llm : llama) (try fuel : nat) : option (option error) :=
  let expiresAt := time_Now_begin h try + 45 * Second in
  waitTicks llm try expiresAt fuel 0.

Definition Close (llm : llama) : M unit := emit (Closed (Port llm)).

(** The argument vector [params] of [newLlama]. *)
Definition params (model : string) (adapters : list string) (opts : Options)
    : list string :=
  let params :=
    [ "--model"; model;
      "--ctx-size"; Itoa (NumCtx opts);
      "--rope-freq-base"; Sprintf_f (RopeFrequencyBase opts);
      "--rope-freq-scale"; Sprintf_f (RopeFrequencyScale opts);
      "--batch-size"; Itoa (NumBatch opts);
      "--n-gpu-layers"; Itoa (NumGPU opts);
      "--embedding" ] in
  let params :=
    if NumGQA opts >? 0 then (params ++ ["--gqa"; Itoa (NumGQA opts)])%list
    else params in
  let params :=
    match adapters with
    | adapter0 :: _ => (params ++ ["--lora"; adapter0])%list
    | [] => params
    end in
  let params :=
    if NumThread opts >? 0 then (params ++ ["--threads"; Itoa (NumThread opts)])%list
    else params in
  let params := if negb (F16KV opts) then (params ++ ["--memory-f32"])%list else params in
  let params := if UseMLock opts then (params ++ ["--mlock"])%list else params in
  let params := if negb (UseMMap opts) then (params ++ ["--no-mmap"])%list else params in
  let params := if UseNUMA opts then (params ++ ["--numa"])%list else params in
  params.

(** The port and the [llama] of attempt [try]. *)
Definition try_port (try : nat) : Z := rand_Intn h try (65535 - 49152) + 49152.

Definition try_llama (params : list string) (runner : ModelRunner)
    (opts : Options) (try : nat) : llama :=
  {| l_Options := opts; Port := try_port try; Cmd_Path := Path runner;
     Cmd_Args := (params ++ ["--port"; Itoa (try_port try)])%list |}.

(** Put events before those of a computation that may still be waiting. *)
Definition after {A} (t : list Event) (m : option (M A)) : option (M A) :=
  match m with
  | Some (r, t') => Some (r, (t ++ t')%list)
  | None => None
  end.

(** The loop [for try := 0; try < 3; try++] of [newLlama], with [left]
    iterations to go from attempt [try] on. *)
Fixpoint startLoop (params : list string) (runner : ModelRunner)
    (opts : Options) (fuel left try : nat) : option (M llama) :=
  match left with
  | O => Some (fail (errorString "max retry exceeded starting llama.cpp"))
  | S left' =>
      let llm := try_llama params runner opts try in
      let started := Started (Port llm) (Cmd_Args llm) in
      match cmd_Start h try (Cmd_Path llm) (Cmd_Args llm) with
      | Some _ =>
          after [started] (startLoop params runner opts fuel left' (S try))
      | None =>
          match waitForServer llm try fuel with
          | None => None
          | Some (Some _) =>
              (* try again *)
              after (started :: snd (Close llm))
                    (startLoop params runner opts fuel left' (S try))
          | Some None =>
              (* server started successfully *)
              Some (Ok llm, [started])
          end
      end
  end.

Definition newLlama (fuel : nat) (model : string) (adapters : list string)
    (runner : ModelRunner) (opts : Options) : option (M llama) :=
  match os_Stat h model with
  | Some err => Some (fail err)
  | None =>
      match os_Stat h (Path runner) with
      | Some err => Some (fail err)
      | None =>
          if (1 <? length adapters)%nat then
            Some (fail (errorString
              "ollama supports only one lora adapter, but multiple were provided"))
          else
            startLoop (params model adapters opts) runner opts fuel 3 0
      end
  end.

End Supervisor.

(** The spawns of a trace, in order. *)
Fixpoint spawns (t : list Event) : list (Z * list string) :=
  match t with
  | [] => []
  | Started port argv :: t' => (port, argv) :: spawns t'
  | _ :: t' => spawns t'
  end.

(** ** The terms the properties are stated in *)

(** A computation is quiet when it does not invoke the callback. *)
Definition quiet {A} (m : M A) : Prop := callbacks (snd m) = [].

(** A line the loop of [Predict] takes for an event: not empty, and
    starting with the marker. *)
Definition is_data (line : string) : bool :=
  negb (String.eqb line "") && HasPrefix line "data: ".

(** The events of a stream: its data lines without the marker. *)
Definition data_events (lines : list string) : list string :=
  map (fun line => SliceFrom line 6) (filter is_data lines).

(** Callbacks that are all partial results. *)
Definition all_partial (cs : list GenerateResponse) : Prop :=
  Forall (fun g => Done g = false) cs.

(** The callbacks of a computation are partial results, followed by at
    most one final result, after which the computation has returned a
    value. *)
Definition done_last {A} (m : M A) : Prop :=
  exists pre,
    all_partial pre /\
    (callbacks (snd m) = pre \/
     exists g, Done g = true /\ callbacks (snd m) = (pre ++ [g])%list /\
               exists a, fst m = Ok a).

(** What [Predict] returns after its loop: [return nil] from the body,
    or the check of [scanner.Err()] after it. *)
Definition stream_result (r : result bool) (err : option error) : result unit :=
  match r with
  | Ok true => Ok tt
  | Ok false =>
      match err with
      | Some e => Err (Errorf_v "error reading llm response: " e)
      | None => Ok tt
      end
  | Err e => Err e
  end.

Section StreamTerms.

Context {json : Json}.
Variable srv : Server.
Variable parseDurationMs : float64 -> Z.
Variable llm : llama.
Variable ctx : GoContext.

(** A line that is no event, or an event that parses and has no stop flag. *)
Definition fragment_line (line : string) : Prop :=
  is_data line = true ->
  exists p, Unmarshal_Prediction (SliceFrom line 6) = Ok p /\ p_Stop p = false.

(** What the stop record does: the fragment, [Encode], the final result. *)
Definition on_stop (acc : string) (p : Prediction) : M bool :=
  emit (Called (partial_response (p_Content p))) ;;;
  embd <- mapErr (Errorf_v "encoding context: ")
                 (Encode srv llm ctx (acc ++ p_Content p)) ;;
  emit (Called (final_response parseDurationMs embd p)) ;;;
  ret true.

(** The loop of [Predict] as it goes over the events alone, which is
    what it does when the context is not cancelled. *)
Fixpoint eventLoop (events : list string) (acc : string) : M bool :=
  match events with
  | [] => ret false
  | evt :: rest =>
      p <- lift (Unmarshal_Prediction evt)
                (Errorf_v "error unmarshaling llm prediction response: ") ;;
      emit (Called (partial_response (p_Content p))) ;;;
      if p_Stop p then
        embd <- mapErr (Errorf_v "encoding context: ")
                       (Encode srv llm ctx (acc ++ p_Content p)) ;;
        emit (Called (final_response parseDurationMs embd p)) ;;;
        ret true
      else eventLoop rest (acc ++ p_Content p)
  end.

End StreamTerms.

(** [b] comes right after [a] in an argument vector. *)
Definition follows (a b : string) (argv : list string) : Prop :=
  exists before after, argv = (before ++ a :: b :: after)%list.

(** The ticker of [waitForServer] is on time: tick [i] is not read
    before [200ms * (i + 1)] have passed since [expiresAt] was set. *)
Definition ticker_on_time (h : Host) : Prop :=
  forall try i,
    time_Now_begin h try + 200 * Millisecond * (Z.of_nat i + 1)
      <= time_Now_tick h try i.

(** Attempt [try] of [newLlama] gets a server that answers: its
    [cmd.Start()] succeeds and its [waitForServer] returns nil. *)
Definition attempt_ready (h : Host) (fuel : nat) (llm : llama) (try : nat) : bool :=
  match cmd_Start h try (Cmd_Path llm) (Cmd_Args llm) with
  | Some _ => false
  | None =>
      match waitForServer h llm try fuel with
      | Some None => true
      | _ => false
      end
  end.

(** What the loop of [newLlama] comes to, from attempt [try] on. *)
Definition loop_outcome (h : Host) (ps : list string) (runner : ModelRunner)
    (opts : Options) (fuel : nat) (left try : nat) (r : result llama)
    (t : list Event) : Prop :=
  (length (spawns t) <= left)%nat /\
  Forall (fun s => exists j, (try <= j < try + left)%nat /\
                             s = (Port (try_llama h ps runner opts j),
                                  Cmd_Args (try_llama h ps runner opts j)))
         (spawns t) /\
  ((forall j, (try <= j < try + left)%nat -> attempt_ready h fuel (try_llama h ps runner opts j) j = false) ->
   r = Err (errorString "max retry exceeded starting llama.cpp") /\ length (spawns t) = left) /\
  (forall j, (try <= j < try + left)%nat ->
             attempt_ready h fuel (try_llama h ps runner opts j) j = true ->
             (forall j', (try <= j' < j)%nat ->
                         attempt_ready h fuel (try_llama h ps runner opts j') j' = false) ->
             r = Ok (try_llama h ps runner opts j) /\
             length (spawns t) = S (j - try)).

(** ** Concrete runs

    A server, a host and the JSON of the few texts they exchange, to run
    the functions above on.  [json_table] is [encoding/json] on those
    texts: it marshals as [json.Marshal] does when no option is set, no
    slice is empty and no character needs an escape, and it unmarshals
    the texts listed, each to what [json.Unmarshal] gives on it, and
    refuses any other. *)
Module Demo.

Definition quote (s : string) : string :=
  String "034"%char (s ++ String "034"%char "").

Definition newline : string := String "010"%char "".

(** [{"content":<c>}] and [{"tokens":[1,2,3,4,5]}]. *)
Definition content_json (c : string) : string :=
  "{" ++ quote "content" ++ ":" ++ quote c ++ "}".

Definition tokens_json : string :=
  "{" ++ quote "tokens" ++ ":[1,2,3,4,5]}".

(** [{"embedding":[0]}]. *)
Definition embedding_json : string :=
  "{" ++ quote "embedding" ++ ":[0]}".

(** [{"content":<c>,"stop":false}]. *)
Definition fragment_json (c : string) : string :=
  "{" ++ quote "content" ++ ":" ++ quote c ++ "," ++ quote "stop" ++ ":false}".

(** [{"content":"","stop":true,"timings":{"predicted_n":2,
    "predicted_ms":40,"prompt_n":3,"prompt_ms":30}}]. *)
Definition stop_json : string :=
  "{" ++ quote "content" ++ ":" ++ quote "" ++ "," ++ quote "stop" ++ ":true,"
  ++ quote "timings" ++ ":{" ++ quote "predicted_n" ++ ":2,"
  ++ quote "predicted_ms" ++ ":40," ++ quote "prompt_n" ++ ":3,"
  ++ quote "prompt_ms" ++ ":30}}".

(** The doubles 40.0 and 30.0. *)
Definition f64_40 : float64 := {| bits64 := 4630826316843712512 |}.
Definition f64_30 : float64 := {| bits64 := 4629137466983448576 |}.
Definition f64_0 : float64 := {| bits64 := 0 |}.
Definition f32_0 : float32 := {| bits32 := 0 |}.

Definition no_timings : Timings :=
  {| PredictedN := 0; PredictedMS := f64_0; PromptN := 0; PromptMS := f64_0 |}.

Definition fragment (c : string) : Prediction :=
  {| p_Content := c; p_Model := ""; p_Prompt := ""; p_Stop := false;
     p_Timings := no_timings |}.

Definition stop_record : Prediction :=
  {| p_Content := ""; p_Model := ""; p_Prompt := ""; p_Stop := true;
     p_Timings := {| PredictedN := 2; PredictedMS := f64_40;
                     PromptN := 3; PromptMS := f64_30 |} |}.

Definition syntax_error : error :=
  errorString "invalid character 'o' in literal null (expecting 'u')".

(** With every option at its zero value, [omitempty] leaves
    [{"stream":true,"prompt":<p>}] of a [PredictRequest]. *)
#[export] Instance json_table : Json := {|
  Marshal_PredictRequest r :=
    Ok ("{" ++ quote "stream" ++ ":true," ++ quote "prompt" ++ ":"
        ++ quote (r_Prompt r) ++ "}");
  Marshal_TokenizeRequest r := Ok (content_json (tq_Content r));
  Marshal_DetokenizeRequest r :=
    Ok ("{" ++ quote "tokens" ++ ":["
        ++ String.concat "," (map Itoa (dq_Tokens r)) ++ "]}");
  Unmarshal_Prediction s :=
    if String.eqb s (fragment_json "Hi") then Ok (fragment "Hi")
    else if String.eqb s (fragment_json " there") then Ok (fragment " there")
    else if String.eqb s stop_json then Ok stop_record
    else Err syntax_error;
  Unmarshal_TokenizeResponse s :=
    if String.eqb s tokens_json then Ok {| ts_Tokens := [1; 2; 3; 4; 5] |}
    else Err syntax_error;
  Unmarshal_DetokenizeResponse s :=
    if String.eqb s (content_json " Hello") then Ok {| ds_Content := " Hello" |}
    else Err syntax_error;
  Unmarshal_EmbeddingResponse s :=
  if String.eqb s embedding_json then Ok {| es_Embedding := [f64_0] |}
  else Err syntax_error
|}.

(** [parseDurationMs] on the two durations above. *)
Definition parseDurationMs (ms : float64) : Z :=
  if bits64 ms =? bits64 f64_40 then 40 * Millisecond
  else if bits64 ms =? bits64 f64_30 then 30 * Millisecond
  else 0.

Definition zero_options : Options :=
  {| NumCtx := 2048; RopeFrequencyBase := f32_0; RopeFrequencyScale := f32_0;
     NumBatch := 512; NumGPU_opt := 1; NumGQA := 0; NumThread := 0;
     F16KV := true; UseMLock := false; UseMMap := true; UseNUMA := false;
     NumPredict := 0; NumKeep := 0; Temperature := f32_0; TopK := 0;
     TopP := f32_0; TFSZ := f32_0; TypicalP := f32_0; RepeatLastN := 0;
     RepeatPenalty := f32_0; PresencePenalty := f32_0;
     FrequencyPenalty := f32_0; Mirostat := 0; MirostatTau := f32_0;
     MirostatEta := f32_0; PenalizeNewline := false; Stop := [] |}.

Definition runner : llama :=
  {| l_Options := zero_options; Port := 50000; Cmd_Path := "/tmp/llama/server";
     Cmd_Args := ["--port"; "50000"] |}.

(** A context that is never cancelled, and one cancelled from the
    [k]-th [select] on. *)
Definition background : GoContext :=
  {| ctx_Done := fun _ => false; ctx_Err := Canceled |}.

Definition cancelled_from (k : nat) : GoContext :=
  {| ctx_Done := fun i => (k <=? i)%nat; ctx_Err := Canceled |}.

(** A body that is one text without a line end, and a body of lines. *)
Definition text_body (s : string) : Body :=
  {| io_ReadAll := Ok s; scan_Lines := [s]; scan_Err := None |}.

Definition lines_body (lines : list string) : Body :=
  {| io_ReadAll := Ok (String.concat "" (map (fun l => l ++ newline) lines));
     scan_Lines := lines; scan_Err := None |}.

(** A server that tokenizes to [1..5], detokenizes to [" Hello"] and
    streams [stream] on [/completion], all with status [code]. *)
Definition server (code : Z) (stream : list string) : Server :=
  fun q =>
    if String.eqb (q_URL q) (endpoint_of runner "/tokenize")
    then Responds code (text_body tokens_json)
    else if String.eqb (q_URL q) (endpoint_of runner "/detokenize")
    then Responds code (text_body (content_json " Hello"))
    else if String.eqb (q_URL q) (endpoint_of runner "/embedding")
    then Responds code (text_body embedding_json)
    else if String.eqb (q_URL q) (endpoint_of runner "/completion")
    then Responds code (lines_body stream)
    else DoFails (errorString "connection refused").

(** The scenario of the streaming test: two fragments, then the stop
    record, one event per line and a blank line after each. *)
Definition hi_there_stop : list string :=
  [ "data: " ++ fragment_json "Hi"; "";
    "data: " ++ fragment_json " there"; "";
    "data: " ++ stop_json; "" ].

(** The same stream when the connection closes before the stop record. *)
Definition hi_there : list string :=
  [ "data: " ++ fragment_json "Hi"; "";
    "data: " ++ fragment_json " there"; "" ].

(** A server that answers every request with one status and one text. *)
Definition refusing (code : Z) (text : string) : Server :=
  fun _ => Responds code (text_body text).

(** A host on which the first [cmd.Start()] fails, the second server
    never answers, and the third answers at its fourth tick.  The ticker
    is on time: tick [i] comes 200ms after tick [i - 1]. *)
Definition host : Host :=
  {| os_Stat := fun _ => None;
     rand_Int63 := fun try => 1000000 + 7 * Z.of_nat try;
     cmd_Start := fun try _ _ =>
       if (try =? 0)%nat then Some (errorString "fork/exec: text file busy")
       else None;
     time_Now_begin := fun _ => 0;
     time_Now_tick := fun _ i => 200 * Millisecond * (Z.of_nat i + 1);
     http_Head := fun try i _ =>
       if (try <=? 1)%nat then HeadFails (errorString "connection refused")
       else if (i <? 3)%nat then HeadResponds 503 "503 Service Unavailable"
       else HeadResponds 200 "200 OK" |}.

(** A host on which no server ever answers. *)
Definition dead_host : Host :=
  {| os_Stat := fun _ => None;
     rand_Int63 := fun try => 1000000 + 7 * Z.of_nat try;
     cmd_Start := fun _ _ _ => None;
     time_Now_begin := fun _ => 0;
     time_Now_tick := fun _ i => 200 * Millisecond * (Z.of_nat i + 1);
     http_Head := fun _ _ _ => HeadFails (errorString "connection refused") |}.

Definition Sprintf_f (x : float32) : string :=
  if bits32 x =? 0 then "0.000000" else "10000.000000".

Definition model_runner : ModelRunner := {| Path := "/tmp/llama/server" |}.

End Demo.

(** ** More of the package: file types, options, errors, the runner *)

(** [llamaFileType], a [uint32], and its constants.  The constant
    declaration restarts at [llamaFileTypeQ8_0] with [iota + 2], where
    [iota] is 5, and the constants after it repeat that expression. *)
Definition llamaFileType : Type := Z.

Definition llamaFileTypeF32 : llamaFileType := 0.
Definition llamaFileTypeF16 : llamaFileType := 1.
Definition llamaFileTypeQ4_0 : llamaFileType := 2.
Definition llamaFileTypeQ4_1 : llamaFileType := 3.
Definition llamaFileTypeQ4_1_F16 : llamaFileType := 4.
Definition llamaFileTypeQ8_0 : llamaFileType := 5 + 2.
Definition llamaFileTypeQ5_0 : llamaFileType := 6 + 2.
Definition llamaFileTypeQ5_1 : llamaFileType := 7 + 2.
Definition llamaFileTypeQ2_K : llamaFileType := 8 + 2.
Definition llamaFileTypeQ3_K_S : llamaFileType := 9 + 2.
Definition llamaFileTypeQ3_K_M : llamaFileType := 10 + 2.
Definition llamaFileTypeQ3_K_L : llamaFileType := 11 + 2.
Definition llamaFileTypeQ4_K_S : llamaFileType := 12 + 2.
Definition llamaFileTypeQ4_K_M : llamaFileType := 13 + 2.
Definition llamaFileTypeQ5_K_S : llamaFileType := 14 + 2.
Definition llamaFileTypeQ5_K_M : llamaFileType := 15 + 2.
Definition llamaFileTypeQ6_K : llamaFileType := 16 + 2.

(** [func (ft llamaFileType) String() string]. *)
Definition fileType_String (ft : llamaFileType) : string :=
  if ft =? llamaFileTypeF32 then "F32"
  else if ft =? llamaFileTypeF16 then "F16"
  else if ft =? llamaFileTypeQ4_0 then "Q4_0"
  else if ft =? llamaFileTypeQ4_1 then "Q4_1"
  else if ft =? llamaFileTypeQ4_1_F16 then "Q4_1_F16"
  else if ft =? llamaFileTypeQ8_0 then "Q8_0"
  else if ft =? llamaFileTypeQ5_0 then "Q5_0"
  else if ft =? llamaFileTypeQ5_1 then "Q5_1"
  else if ft =? llamaFileTypeQ2_K then "Q2_K"
  else if ft =? llamaFileTypeQ3_K_S then "Q3_K_S"
  else if ft =? llamaFileTypeQ3_K_M then "Q3_K_M"
  else if ft =? llamaFileTypeQ3_K_L then "Q3_K_L"
  else if ft =? llamaFileTypeQ4_K_S then "Q4_K_S"
  else if ft =? llamaFileTypeQ4_K_M then "Q4_K_M"
  else if ft =? llamaFileTypeQ5_K_S then "Q5_K_S"
  else if ft =? llamaFileTypeQ5_K_M then "Q5_K_M"
  else if ft =? llamaFileTypeQ6_K then "Q6_K"
  else "Unknown".

(** [func (llm *llama) SetOptions(opts api.Options)]: the embedded
    [api.Options] is replaced, [Running] is left as it is. *)
Definition SetOptions (llm : llama) (opts : Options) : llama :=
  {| l_Options := opts; Port := Port llm;
     Cmd_Path := Cmd_Path llm; Cmd_Args := Cmd_Args llm |}.

(** [errors.Is(err, target)] for a non-nil [err]: [err] or an error it
    wraps is [target].  Go compares the two context errors, which are
    package variables, as values; the errors [errors.New] builds are
    compared by identity, which is told apart here by their message. *)
Fixpoint error_eqb (a b : error) : bool :=
  match a, b with
  | Canceled, Canceled => true
  | DeadlineExceeded, DeadlineExceeded => true
  | errorString m, errorString n => String.eqb m n
  | wrapError m x, wrapError n y => String.eqb m n && error_eqb x y
  | _, _ => false
  end.

Fixpoint errors_Is (err target : error) : bool :=
  error_eqb err target ||
  match err with
  | wrapError _ inner => errors_Is inner target
  | _ => false
  end.

Definition errNoGPU : error := errorString "nvidia-smi command failed".

(** [CheckVRAM]: the probe of [nvidia-smi] is commented out. *)
Definition CheckVRAM : Z * option error := (23000, None).

(** The files and the runtime [chooseRunner] works on: [runtime.GOOS],
    the two [Join]s, [os.MkdirTemp("", "llama-*")], [fs.Stat] and [Open]
    on the embedded files, [os.OpenFile] on a destination, and [io.Copy]
    to a destination from a source. *)
Record Bundle : Type := {
  GOOS : string;
  path_Join : string -> string -> string;
  filepath_Join : string -> string -> string;
  os_MkdirTemp : result string;
  embed_Stat : string -> option error;
  embed_Open : string -> option error;
  os_OpenFile : string -> option error;
  io_Copy : string -> string -> option error
}.

(** What a call that may end in [log.Fatalf] comes to. *)
Inductive Exit (A : Type) : Type :=
| Fatalf (msg : string)
| Returns (a : A).
Arguments Fatalf {A} msg.
Arguments Returns {A} a.

Section Runner.

Variable b : Bundle.

Definition osPath (llamaPath : string) : string :=
  if String.eqb (GOOS b) "windows" then path_Join b llamaPath "Release"
  else llamaPath.

(** The loop [for _, f := range files] of [chooseRunner]: the copies
    made, as pairs of a source and a destination, and the message of
    the [log.Fatalf] that stopped it, if one did. *)
Fixpoint copyFiles (llamaPath tmpDir : string) (files : list string)
    : list (string * string) * option string :=
  match files with
  | [] => ([], None)
  | f :: rest =>
      let srcPath := path_Join b llamaPath f in
      let destPath := filepath_Join b tmpDir f in
      match embed_Open b srcPath with
      | Some err => ([], Some ("read llama.cpp " ++ f ++ ": " ++ Error err))
      | None =>
          match os_OpenFile b destPath with
          | Some err => ([], Some ("write llama.cpp " ++ f ++ ": " ++ Error err))
          | None =>
              match io_Copy b destPath srcPath with
              | Some err => ([], Some ("copy llama.cpp " ++ f ++ ": " ++ Error err))
              | None =>
                  let '(copied, fatal) := copyFiles llamaPath tmpDir rest in
                  ((srcPath, destPath) :: copied, fatal)
              end
          end
      end
  end.

(** The directory of the build [chooseRunner] first settles on: the GPU
    one when it is embedded, else the CPU one, else none. *)
Definition embedded_build (gpuPath cpuPath : string) : option string :=
  match embed_Stat b (osPath gpuPath) with
  | None => Some (osPath gpuPath)
  | Some _ =>
      match embed_Stat b (osPath cpuPath) with
      | None => Some (osPath cpuPath)
      | Some _ => None
      end
  end.

(** [chooseRunner]: the copies made, and the path returned or the
    message of the [log.Fatalf] that ended the program. *)
Definition chooseRunner (gpuPath cpuPath : string)
    : list (string * string) * Exit string :=
  match os_MkdirTemp b with
  | Err err =>
      ([], Fatalf ("llama.cpp: failed to create temp dir: " ++ Error err))
  | Ok tmpDir =>
      match embedded_build gpuPath cpuPath with
      | None => ([], Fatalf "llama.cpp executable not found")
      | Some llamaPath =>
          let files := ["server"] in
          let '(files, llamaPath) :=
            if String.eqb (GOOS b) "windows" then (["server.exe"], llamaPath)
            else if String.eqb (GOOS b) "darwin" then
              if String.eqb llamaPath (osPath gpuPath)
              then ((files ++ ["ggml-metal.metal"])%list, llamaPath)
              else (files, llamaPath)
            else if String.eqb (GOOS b) "linux" then
              (* check if there is a GPU available *)
              match snd CheckVRAM with
              | Some err =>
                  if errors_Is err errNoGPU then (files, osPath cpuPath)
                  else (files, llamaPath)
              | None => (files, llamaPath)
              end
            else (files, llamaPath) in
          match copyFiles llamaPath tmpDir files with
          | (copied, Some msg) => (copied, Fatalf msg)
          | (copied, None) =>
              let runPath := filepath_Join b tmpDir "server" in
              let runPath :=
                if String.eqb (GOOS b) "windows"
                then filepath_Join b tmpDir "server.exe" else runPath in
              (copied, Returns runPath)
          end
      end
  end.

End Runner.

(** The ports closed in a trace, in order. *)
Fixpoint closes (t : list Event) : list Z :=
  match t with
  | [] => []
  | Closed port :: t' => port :: closes t'
  | _ :: t' => closes t'
  end.

Section StreamContents.

Context {json : Json}.

(** The contents of the events of a stream that parse, in order. *)
Fixpoint contents (lines : list string) : list string :=
  match lines with
  | [] => []
  | line :: rest =>
      if is_data line then
        match Unmarshal_Prediction (SliceFrom line 6) with
        | Ok p => p_Content p :: contents rest
        | Err _ => contents rest
        end
      else contents rest
  end.

End StreamContents.

(** The port of attempt [try] of [newLlama] when its [cmd.Start()]
    succeeds: the port of a process that runs. *)
Definition running_port (h : Host) (ps : list string) (runner : ModelRunner)
    (opts : Options) (try : nat) : list Z :=
  let llm := try_llama h ps runner opts try in
  match cmd_Start h try (Cmd_Path llm) (Cmd_Args llm) with
  | None => [Port llm]
  | Some _ => []
  end.

(** The text of the builder [nextContext] after [WriteString] of each of
    [cs] in turn. *)
Definition written (acc : string) (cs : list string) : string :=
  fold_left String.append cs acc.

(** Requests that are none, or the one [POST] with the caller's context
    to a route of the server of [llm]. *)
Definition to_route (llm : llama) (ctx : GoContext) (route : string)
    (qs : list Request) : Prop :=
  qs = [] \/ exists data, qs = [post_request ctx (endpoint_of llm route) data].

(** One callback with a partial result for each content. *)
Definition partials (cs : list string) : list Event :=
  map (fun c => Called (partial_response c)) cs.

(** Options that agree on the sixteen fields [Predict] reads; they may
    differ on those that only [newLlama] reads. *)
Definition same_sampling (o1 o2 : Options) : Prop :=
  NumPredict o1 = NumPredict o2 /\
  NumKeep o1 = NumKeep o2 /\
  Temperature o1 = Temperature o2 /\
  TopK o1 = TopK o2 /\
  TopP o1 = TopP o2 /\
  TFSZ o1 = TFSZ o2 /\
  TypicalP o1 = TypicalP o2 /\
  RepeatLastN o1 = RepeatLastN o2 /\
  RepeatPenalty o1 = RepeatPenalty o2 /\
  PresencePenalty o1 = PresencePenalty o2 /\
  FrequencyPenalty o1 = FrequencyPenalty o2 /\
  Mirostat o1 = Mirostat o2 /\
  MirostatTau o1 = MirostatTau o2 /\
  MirostatEta o1 = MirostatEta o2 /\
  PenalizeNewline o1 = PenalizeNewline o2 /\
  Stop o1 = Stop o2.

(** More concrete runs: a server whose tokenizer answers with a status
    of its own, on a stream given as a body; a body cut by a read error;
    and a stream whose second event is the text [no]. *)
Module Samples.

Definition server (tokenize_code : Z) (completion : Body) : Server :=
  fun q =>
    if String.eqb (q_URL q) (endpoint_of Demo.runner "/tokenize")
    then Responds tokenize_code (Demo.text_body Demo.tokens_json)
    else if String.eqb (q_URL q) (endpoint_of Demo.runner "/completion")
    then Responds 200 completion
    else DoFails (errorString "connection refused").

Definition unexpected_EOF : error := errorString "unexpected EOF".

Definition cut_body (lines : list string) : Body :=
  {| io_ReadAll := Err unexpected_EOF; scan_Lines := lines;
     scan_Err := Some unexpected_EOF |}.

Definition hi_no_there : list string :=
  [ "data: " ++ Demo.fragment_json "Hi"; "";
    "data: no"; "";
    "data: " ++ Demo.fragment_json " there"; "" ].

Definition completion_request : string :=
  "{" ++ Demo.quote "stream" ++ ":true," ++ Demo.quote "prompt" ++ ":"
  ++ Demo.quote "Hello" ++ "}".

(** A transport that gives up every request because the context was
    cancelled. *)
Definition cancelled_transport : Server := fun _ => DoFails Canceled.

(** A machine of a given system with both builds embedded under
    [llama.cpp/gguf/build], or the CPU build alone. *)
Definition gpu_dir : string := "llama.cpp/gguf/build/gpu/bin".
Definition cpu_dir : string := "llama.cpp/gguf/build/cpu/bin".

Definition bundle (goos : string) (with_gpu : bool) : Bundle :=
  {| GOOS := goos;
     path_Join := fun dir f => dir ++ "/" ++ f;
     filepath_Join := fun dir f => dir ++ "/" ++ f;
     os_MkdirTemp := Ok "/tmp/llama-1";
     embed_Stat := fun p =>
       if String.eqb p cpu_dir then None
       else if String.eqb p gpu_dir && with_gpu then None
       else Some (errorString "file does not exist");
     embed_Open := fun _ => None;
     os_OpenFile := fun _ => None;
     io_Copy := fun _ _ => None |}.

(** [Demo.zero_options] with a context of 4096 and 8 threads. *)
Definition larger_context : Options :=
  {| NumCtx := 4096; RopeFrequencyBase := Demo.f32_0;
     RopeFrequencyScale := Demo.f32_0;
     NumBatch := 512; NumGPU_opt := 1; NumGQA := 0; NumThread := 8;
     F16KV := true; UseMLock := false; UseMMap := true; UseNUMA := false;
     NumPredict := 0; NumKeep := 0; Temperature := Demo.f32_0; TopK := 0;
     TopP := Demo.f32_0; TFSZ := Demo.f32_0; TypicalP := Demo.f32_0;
     RepeatLastN := 0; RepeatPenalty := Demo.f32_0;
     PresencePenalty := Demo.f32_0; FrequencyPenalty := Demo.f32_0;
     Mirostat := 0; MirostatTau := Demo.f32_0; MirostatEta := Demo.f32_0;
     PenalizeNewline := false; Stop := [] |}.

End Samples.

(** * Properties *)

(** ** Traces *)

Lemma callbacks_app (t1 t2 : list Event) :
  callbacks (t1 ++ t2) = (callbacks t1 ++ callbacks t2)%list.
Proof.
  induction t1 as [|ev t1 IH]; simpl; [reflexivity|].
  destruct ev; simpl; rewrite IH; reflexivity.
Qed.

Lemma spawns_app (t1 t2 : list Event) :
  spawns (t1 ++ t2) = (spawns t1 ++ spawns t2)%list.
Proof.
  induction t1 as [|ev t1 IH]; simpl; [reflexivity|].
  destruct ev; simpl; rewrite IH; reflexivity.
Qed.

(** The shape of a [bind]: the trace of the first computation, then,
    when it returned a value, the trace of the second. *)
Lemma bind_Ok {A B} (m : M A) (f : A -> M B) (a : A) (t : list Event) :
  m = (Ok a, t) -> bind m f = (fst (f a), (t ++ snd (f a))%list).
Proof.
  intros ->. unfold bind. destruct (f a); reflexivity.
Qed.

Lemma bind_Err {A B} (m : M A) (f : A -> M B) (e : error) (t : list Event) :
  m = (Err e, t) -> bind m f = (Err e, t).
Proof.
  intros ->. reflexivity.
Qed.

Lemma bind_ret {A B} (a : A) (f : A -> M B) : bind (ret a) f = f a.
Proof.
  unfold bind, ret. destruct (f a); reflexivity.
Qed.

Lemma bind_fail {A B} (e : error) (f : A -> M B) : bind (fail e) f = fail e.
Proof. reflexivity. Qed.

Lemma bind_emit {B} (ev : Event) (f : unit -> M B) :
  bind (emit ev) f = (fst (f tt), ev :: snd (f tt)).
Proof.
  unfold bind, emit. destruct (f tt); reflexivity.
Qed.

Lemma lift_Ok {A} (a : A) (wrap : error -> error) : lift (Ok a) wrap = ret a.
Proof. reflexivity. Qed.

Lemma lift_Err {A} (e : error) (wrap : error -> error) :
  @lift A (Err e) wrap = fail (wrap e).
Proof. reflexivity. Qed.

(** Run a computation as far as its oracles are known. *)
Ltac run := cbn -[endpoint_of post_request CutPrefix Z.geb String.append].

Lemma quiet_bind {A B} (m : M A) (f : A -> M B) :
  quiet m -> (forall a, quiet (f a)) -> quiet (bind m f).
Proof.
  unfold quiet. destruct m as [[a|e] t]; simpl; intros Hm Hf; [|exact Hm].
  specialize (Hf a). destruct (f a) as [r t']. simpl in *.
  rewrite callbacks_app, Hm, Hf. reflexivity.
Qed.

Lemma quiet_lift {A} (r : result A) (wrap : error -> error) : quiet (lift r wrap).
Proof.
  destruct r; reflexivity.
Qed.

Lemma quiet_ret {A} (a : A) : quiet (ret a).
Proof. reflexivity. Qed.

Lemma quiet_fail {A} (e : error) : quiet (@fail A e).
Proof. reflexivity. Qed.

Lemma quiet_mapErr {A} (wrap : error -> error) (m : M A) :
  quiet m -> quiet (mapErr wrap m).
Proof.
  unfold quiet. destruct m as [[a|e] t]; simpl; auto.
Qed.

Create HintDb quiet.
#[local] Hint Resolve quiet_lift quiet_ret quiet_fail quiet_mapErr : quiet.

(** ** Strings *)

Lemma substring_all (s : string) : substring 0 (String.length s) s = s.
Proof.
  induction s as [|c s IH]; simpl; [reflexivity|].
  rewrite IH. reflexivity.
Qed.

Lemma SliceFrom_0 (s : string) : SliceFrom s 0 = s.
Proof.
  unfold SliceFrom. rewrite Nat.sub_0_r. apply substring_all.
Qed.

(** Cutting the empty prefix cuts nothing. *)
Lemma CutPrefix_empty (s : string) : CutPrefix s "" = (s, true).
Proof.
  unfold CutPrefix, HasPrefix. simpl.
  rewrite SliceFrom_0. destruct s; reflexivity.
Qed.

(** ** The client *)

Section ClientFacts.

Context {json : Json}.
Variable srv : Server.
Variable parseDurationMs : float64 -> Z.

(** [post] sends at most its one request and calls nobody back. *)
Lemma quiet_post ctx endpoint data w1 w2 :
  quiet (post srv ctx endpoint data w1 w2).
Proof.
  unfold post, quiet. destruct (srv _); reflexivity.
Qed.

Lemma quiet_Encode llm ctx prompt : quiet (Encode srv llm ctx prompt).
Proof.
  unfold Encode.
  apply quiet_bind; [auto with quiet|intros data].
  apply quiet_bind; [apply quiet_post|intros resp].
  apply quiet_bind; [auto with quiet|intros body].
  destruct (fst resp >=? 400); [auto with quiet|].
  apply quiet_bind; auto with quiet.
Qed.

Lemma quiet_Decode llm ctx tokens : quiet (Decode srv llm ctx tokens).
Proof.
  unfold Decode.
  destruct (length tokens =? 0)%nat; [auto with quiet|].
  apply quiet_bind; [auto with quiet|intros data].
  apply quiet_bind; [apply quiet_post|intros resp].
  apply quiet_bind; [auto with quiet|intros body].
  destruct (fst resp >=? 400); [auto with quiet|].
  apply quiet_bind; auto with quiet.
Qed.

(** What [Decode] returns when the server answers: the content of the
    response, as it came. *)
Lemma Decode_answer llm ctx tokens data code body text decoded :
  tokens <> [] ->
  Marshal_DetokenizeRequest {| dq_Tokens := tokens |} = Ok data ->
  srv (post_request ctx (endpoint_of llm "/detokenize") data) = Responds code body ->
  code < 400 ->
  io_ReadAll body = Ok text ->
  Unmarshal_DetokenizeResponse text = Ok decoded ->
  Decode srv llm ctx tokens =
    (Ok (ds_Content decoded),
     [Sent (post_request ctx (endpoint_of llm "/detokenize") data)]).
Proof.
  intros Hne Hm Hs Hc Hr Hu.
  unfold Decode. destruct tokens as [|t ts]; [congruence|].
  cbn [length Nat.eqb]. rewrite Hm. unfold post. run. rewrite Hs. run.
  rewrite Hr. run.
  destruct (code >=? 400) eqn:E; [apply Z.geb_le in E; lia|].
  rewrite Hu. run.
  rewrite CutPrefix_empty. reflexivity.
Qed.

End ClientFacts.

(** C8: [Decode] of no tokens is the empty string, at once: nothing is
    sent to the server, whatever the context, the server and the port. *)
Theorem Decode_empty_no_request :
  forall (json : Json) (srv : Server) (llm : llama) (ctx : GoContext),
    Decode srv llm ctx [] = (Ok "", []) /\
    requests (snd (Decode srv llm ctx [])) = [].
Proof.
  intros. split; reflexivity.
Qed.

(** C10: when [Decode] of the previous context fails, [Predict] returns
    that very error, has done nothing more than [Decode] did, and has
    not invoked the callback, with a partial or with a final result. *)
Theorem Predict_decode_error_no_callback :
  forall (json : Json) (srv : Server) (parseDurationMs : float64 -> Z)
         (llm : llama) (ctx : GoContext) (prevContext : list Z)
         (prompt : string) (err : error) (t : list Event),
    Decode srv llm ctx prevContext = (Err err, t) ->
    Predict srv parseDurationMs llm ctx prevContext prompt = (Err err, t) /\
    callbacks (snd (Predict srv parseDurationMs llm ctx prevContext prompt)) = [].
Proof.
  intros json srv pd llm ctx prev prompt err t H.
  assert (E : Predict srv pd llm ctx prev prompt = (Err err, t)).
  { unfold Predict. apply (bind_Err _ _ _ _ H). }
  split; [exact E|].
  rewrite E. simpl.
  pose proof (quiet_Decode srv llm ctx prev) as C. unfold quiet in C.
  rewrite H in C. exact C.
Qed.

(** The server answers 500 to [/detokenize]: [Predict] fails with the
    body of that answer and the callback is not invoked. *)
Lemma Predict_decode_error_no_callback_witness :
  let srv := Demo.server 500 Demo.hi_there_stop in
  let request :=
    post_request Demo.background (endpoint_of Demo.runner "/detokenize")
      ("{" ++ Demo.quote "tokens" ++ ":[1,2]}") in
  @Predict Demo.json_table srv Demo.parseDurationMs Demo.runner
     Demo.background [1; 2] "Hello"
    = (Err (errorString (Demo.content_json " Hello")), [Sent request]) /\
  callbacks (snd (@Predict Demo.json_table srv Demo.parseDurationMs Demo.runner
                    Demo.background [1; 2] "Hello")) = [].
Proof.
  apply (@Predict_decode_error_no_callback Demo.json_table).
  vm_compute. reflexivity.
Defined.

(** ** The streaming loop *)

Section StreamFacts.

Context {json : Json}.
Variable srv : Server.
Variable parseDurationMs : float64 -> Z.
Variable llm : llama.
Variable ctx : GoContext.

Local Abbreviation loop := (scanLoop srv parseDurationMs llm ctx).
Local Abbreviation stop_step := (on_stop srv parseDurationMs llm ctx).
Local Abbreviation events_loop := (eventLoop srv parseDurationMs llm ctx).

(** The loop on a line that is no event. *)
Lemma scanLoop_skip line rest i acc :
  ctx_Done ctx i = false -> is_data line = false ->
  loop i (line :: rest) acc = loop (S i) rest acc.
Proof.
  intros Hd Hl. cbn [scanLoop]. rewrite Hd.
  unfold is_data in Hl.
  destruct (String.eqb line ""); [reflexivity|].
  destruct (HasPrefix line "data: "); [discriminate|reflexivity].
Qed.

(** The loop on an event that parses. *)
Lemma scanLoop_event line rest i acc p :
  ctx_Done ctx i = false -> is_data line = true ->
  Unmarshal_Prediction (SliceFrom line 6) = Ok p ->
  loop i (line :: rest) acc =
    emit (Called (partial_response (p_Content p))) ;;;
    if p_Stop p then
      embd <- mapErr (Errorf_v "encoding context: ")
                     (Encode srv llm ctx (acc ++ p_Content p)) ;;
      emit (Called (final_response parseDurationMs embd p)) ;;;
      ret true
    else loop (S i) rest (acc ++ p_Content p).
Proof.
  intros Hd Hl Hp. cbn [scanLoop]. rewrite Hd.
  unfold is_data in Hl. apply andb_true_iff in Hl. destruct Hl as [H1 H2].
  apply negb_true_iff in H1. rewrite H1, H2, Hp, lift_Ok, bind_ret.
  reflexivity.
Qed.

(** The loop on an event that does not parse. *)
Lemma scanLoop_garbage line rest i acc e :
  ctx_Done ctx i = false -> is_data line = true ->
  Unmarshal_Prediction (SliceFrom line 6) = Err e ->
  loop i (line :: rest) acc =
    fail (Errorf_v "error unmarshaling llm prediction response: " e).
Proof.
  intros Hd Hl Hp. cbn [scanLoop]. rewrite Hd.
  unfold is_data in Hl. apply andb_true_iff in Hl. destruct Hl as [H1 H2].
  apply negb_true_iff in H1. rewrite H1, H2, Hp, lift_Err, bind_fail.
  reflexivity.
Qed.

(** The loop when the context is done. *)
Lemma scanLoop_cancelled line rest i acc :
  ctx_Done ctx i = true ->
  loop i (line :: rest) acc = fail (ctx_Err ctx).
Proof.
  intros Hd. cbn [scanLoop]. rewrite Hd. reflexivity.
Qed.

Lemma on_stop_shape acc p :
  fst (stop_step acc p) <> Ok false /\
  (fst (stop_step acc p) = Ok true ->
   exists embd,
     callbacks (snd (stop_step acc p)) =
       [partial_response (p_Content p); final_response parseDurationMs embd p]) /\
  (fst (stop_step acc p) <> Ok true ->
   callbacks (snd (stop_step acc p)) = [partial_response (p_Content p)]).
Proof.
  unfold on_stop. rewrite bind_emit.
  pose proof (quiet_Encode srv llm ctx (acc ++ p_Content p)) as Q.
  unfold quiet in Q.
  destruct (Encode srv llm ctx (acc ++ p_Content p)) as [[embd|e] t];
    cbn in Q |- *.
  - rewrite callbacks_app, Q. cbn.
    split; [discriminate|]. split.
    + intros _. exists embd. reflexivity.
    + intros H. congruence.
  - rewrite Q. split; [discriminate|]. split.
    + discriminate.
    + reflexivity.
Qed.

(** The callbacks of the loop, whatever the stream: partial results,
    and after them one final result exactly when the loop executed its
    [return nil]. *)
Lemma scanLoop_shape lines :
  forall i acc,
  exists pre,
    all_partial pre /\
    (fst (loop i lines acc) = Ok true ->
     exists g, Done g = true /\
               callbacks (snd (loop i lines acc)) = (pre ++ [g])%list) /\
    (fst (loop i lines acc) <> Ok true ->
     callbacks (snd (loop i lines acc)) = pre).
Proof.
  induction lines as [|line rest IH]; intros i acc.
  - exists []. split; [constructor|split; [discriminate|reflexivity]].
  - destruct (ctx_Done ctx i) eqn:Hd.
    { rewrite (scanLoop_cancelled _ _ _ _ Hd). exists [].
      split; [constructor|split; [discriminate|reflexivity]]. }
    destruct (is_data line) eqn:Hl.
    2:{ rewrite (scanLoop_skip _ _ _ _ Hd Hl). apply IH. }
    destruct (Unmarshal_Prediction (SliceFrom line 6)) as [p|e] eqn:Hp.
    2:{ rewrite (scanLoop_garbage _ _ _ _ _ Hd Hl Hp). exists [].
        split; [constructor|split; [discriminate|reflexivity]]. }
    rewrite (scanLoop_event _ _ _ _ _ Hd Hl Hp).
    destruct (p_Stop p) eqn:Hs.
    + fold (on_stop srv parseDurationMs llm ctx acc p).
      destruct (on_stop_shape acc p) as (_ & Hyes & Hno).
      exists [partial_response (p_Content p)].
      split; [repeat constructor|]. split.
      * intros H. destruct (Hyes H) as [embd E].
        exists (final_response parseDurationMs embd p). split; [reflexivity|exact E].
      * exact Hno.
    + rewrite bind_emit. cbn [fst snd callbacks].
      destruct (IH (S i) (acc ++ p_Content p)) as (pre & Hpre & Hyes & Hno).
      exists (partial_response (p_Content p) :: pre).
      split; [constructor; [reflexivity|exact Hpre]|]. split.
      * intros H. destruct (Hyes H) as (g & Hg & E).
        exists g. split; [exact Hg|]. rewrite E. reflexivity.
      * intros H. rewrite (Hno H). reflexivity.
Qed.

Lemma scanLoop_as_events lines :
  forall i acc,
    (forall j, (i <= j < i + length lines)%nat -> ctx_Done ctx j = false) ->
    loop i lines acc = events_loop (data_events lines) acc.
Proof.
  induction lines as [|line rest IH]; intros i acc Hctx; [reflexivity|].
  assert (Hd : ctx_Done ctx i = false) by (apply Hctx; simpl; lia).
  assert (Hrest : forall j, (S i <= j < S i + length rest)%nat ->
                            ctx_Done ctx j = false)
    by (intros j Hj; apply Hctx; simpl; lia).
  unfold data_events. cbn [filter].
  destruct (is_data line) eqn:Hl.
  - cbn [map eventLoop].
    destruct (Unmarshal_Prediction (SliceFrom line 6)) as [p|e] eqn:Hp.
    + rewrite (scanLoop_event _ _ _ _ _ Hd Hl Hp), lift_Ok, bind_ret.
      destruct (p_Stop p); [reflexivity|].
      rewrite (IH (S i) _ Hrest). reflexivity.
    + rewrite (scanLoop_garbage _ _ _ _ _ Hd Hl Hp), lift_Err, bind_fail.
      reflexivity.
  - rewrite (scanLoop_skip _ _ _ _ Hd Hl). apply (IH (S i) _ Hrest).
Qed.

(** A stream of fragments only, read to its end by a caller who does
    not cancel: the loop falls through, after partial results only. *)
Lemma scanLoop_fragments lines :
  forall i acc,
    Forall fragment_line lines ->
    (forall j, (i <= j < i + length lines)%nat -> ctx_Done ctx j = false) ->
    fst (loop i lines acc) = Ok false /\
    all_partial (callbacks (snd (loop i lines acc))).
Proof.
  induction lines as [|line rest IH]; intros i acc Hfr Hctx.
  - split; [reflexivity|constructor].
  - assert (Hd : ctx_Done ctx i = false) by (apply Hctx; simpl; lia).
    assert (Hrest : forall j, (S i <= j < S i + length rest)%nat ->
                              ctx_Done ctx j = false)
      by (intros j Hj; apply Hctx; simpl; lia).
    inversion Hfr as [|? ? Hline Hfr']; subst.
    destruct (is_data line) eqn:Hl.
    + destruct (Hline Hl) as (p & Hp & Hs).
      rewrite (scanLoop_event _ _ _ _ _ Hd Hl Hp), Hs, bind_emit.
      destruct (IH (S i) (acc ++ p_Content p) Hfr' Hrest) as [E P].
      split; [exact E|]. constructor; [reflexivity|exact P].
    + rewrite (scanLoop_skip _ _ _ _ Hd Hl). apply (IH (S i) _ Hfr' Hrest).
Qed.

(** The context is found done at the [select] of line [i + k], and the
    lines before it are fragments: the loop returns [ctx.Err()], after
    partial results only. *)
Lemma scanLoop_cancel lines :
  forall i acc k,
    (k < length lines)%nat ->
    ctx_Done ctx (i + k) = true ->
    Forall fragment_line (firstn k lines) ->
    fst (loop i lines acc) = Err (ctx_Err ctx) /\
    all_partial (callbacks (snd (loop i lines acc))).
Proof.
  induction lines as [|line rest IH]; intros i acc k Hk Hdone Hfr;
    [simpl in Hk; lia|].
  destruct (ctx_Done ctx i) eqn:Hd.
  { rewrite (scanLoop_cancelled _ _ _ _ Hd). split; [reflexivity|constructor]. }
  destruct k as [|k].
  { rewrite Nat.add_0_r in Hdone. congruence. }
  cbn [firstn] in Hfr. inversion Hfr as [|? ? Hline Hfr']; subst.
  assert (Hk' : (k < length rest)%nat) by (simpl in Hk; lia).
  assert (Hdone' : ctx_Done ctx (S i + k) = true)
    by (rewrite <- Hdone; f_equal; lia).
  destruct (is_data line) eqn:Hl.
  - destruct (Hline Hl) as (p & Hp & Hs).
    rewrite (scanLoop_event _ _ _ _ _ Hd Hl Hp), Hs, bind_emit.
    destruct (IH (S i) (acc ++ p_Content p) k Hk' Hdone' Hfr') as [E P].
    split; [exact E|]. constructor; [reflexivity|exact P].
  - rewrite (scanLoop_skip _ _ _ _ Hd Hl).
    apply (IH (S i) _ k Hk' Hdone' Hfr').
Qed.

(** [Predict] once the server streams: the previous context decoded,
    the request accepted with a status below 400. *)
Lemma Predict_streaming prevContext prompt prevConvo t0 data code body :
  Decode srv llm ctx prevContext = (Ok prevConvo, t0) ->
  Marshal_PredictRequest (predict_request llm (prevConvo ++ prompt)) = Ok data ->
  srv (post_request ctx (endpoint_of llm "/completion") data) = Responds code body ->
  code < 400 ->
  Predict srv parseDurationMs llm ctx prevContext prompt =
    (stream_result (fst (loop 0 (scan_Lines body) (prevConvo ++ prompt)))
                   (scan_Err body),
     (t0 ++ Sent (post_request ctx (endpoint_of llm "/completion") data)
         :: snd (loop 0 (scan_Lines body) (prevConvo ++ prompt)))%list).
Proof.
  intros Hdec Hm Hs Hc.
  unfold Predict. rewrite (bind_Ok _ _ _ _ Hdec). cbv beta zeta.
  rewrite Hm, lift_Ok, bind_ret. unfold post. rewrite Hs, bind_emit.
  cbn [fst snd ret]. erewrite bind_Ok by reflexivity. cbn [fst snd].
  destruct (code >=? 400) eqn:E; [apply Z.geb_le in E; lia|].
  destruct (loop 0 (scan_Lines body) (prevConvo ++ prompt)) as [[[|]|e] t];
    cbn [fst snd stream_result bind ret].
  - rewrite app_nil_r. reflexivity.
  - destruct (scan_Err body); cbn; rewrite app_nil_r; reflexivity.
  - reflexivity.
Qed.

End StreamFacts.

(** ** [Predict] and its callbacks *)

Lemma done_last_quiet {A} (m : M A) : quiet m -> done_last m.
Proof.
  intros Q. exists []. split; [constructor|left; exact Q].
Qed.

Lemma done_last_bind {A B} (m : M A) (f : A -> M B) :
  quiet m -> (forall a, done_last (f a)) -> done_last (bind m f).
Proof.
  unfold quiet. destruct m as [[a|e] t]; cbn [snd]; intros Q Hf.
  - destruct (Hf a) as (pre & Hpre & Hcs). exists pre. split; [exact Hpre|].
    rewrite (bind_Ok _ _ a t eq_refl). cbn [fst snd].
    rewrite callbacks_app, Q. exact Hcs.
  - apply done_last_quiet. exact Q.
Qed.

Section PredictFacts.

Context {json : Json}.
Variable srv : Server.
Variable parseDurationMs : float64 -> Z.
Variable llm : llama.
Variable ctx : GoContext.

(** The end of [Predict]: the loop, then the check of the scanner. *)
Lemma done_last_stream lines acc err :
  done_last
    (returned <- scanLoop srv parseDurationMs llm ctx 0 lines acc ;;
     if (returned : bool) then ret tt
     else match err with
          | Some e => fail (Errorf_v "error reading llm response: " e)
          | None => ret tt
          end).
Proof.
  destruct (scanLoop_shape srv parseDurationMs llm ctx lines 0 acc)
    as (pre & Hpre & Hyes & Hno).
  exists pre. split; [exact Hpre|].
  destruct (scanLoop srv parseDurationMs llm ctx 0 lines acc)
    as [[[|]|e] t]; cbn [fst snd] in *.
  - right. destruct (Hyes eq_refl) as (g & Hg & E).
    exists g. split; [exact Hg|]. cbn. rewrite app_nil_r.
    split; [exact E|]. exists tt. reflexivity.
  - left. destruct err; cbn; rewrite app_nil_r; apply Hno; discriminate.
  - left. cbn. apply Hno. discriminate.
Qed.

Lemma Predict_done_last prevContext prompt :
  done_last (Predict srv parseDurationMs llm ctx prevContext prompt).
Proof.
  unfold Predict.
  apply done_last_bind; [apply quiet_Decode|intros prevConvo].
  apply done_last_bind; [apply quiet_lift|intros data].
  apply done_last_bind; [apply quiet_post|intros resp].
  destruct (fst resp >=? 400).
  - apply done_last_quiet. apply quiet_bind; auto with quiet.
  - apply done_last_stream.
Qed.

End PredictFacts.

(** C5, as the code has it: in every call of [Predict] the callback is
    invoked with done=true at most once; when it is, that invocation is
    the last one, every one before it is a partial result, and [Predict]
    returns nil. *)
Theorem Predict_done_at_most_once_and_last :
  forall (json : Json) (srv : Server) (parseDurationMs : float64 -> Z)
         (llm : llama) (ctx : GoContext) (prevContext : list Z) (prompt : string),
    let run := Predict srv parseDurationMs llm ctx prevContext prompt in
    exists pre,
      Forall (fun g => Done g = false) pre /\
      (callbacks (snd run) = pre \/
       exists g, Done g = true /\ callbacks (snd run) = (pre ++ [g])%list /\
                 fst run = Ok tt).
Proof.
  intros json srv pd llm ctx prev prompt run.
  destruct (Predict_done_last srv pd llm ctx prev prompt) as (pre & Hpre & H).
  exists pre. split; [exact Hpre|].
  destruct H as [H|(g & Hg & E & [[] Hr])]; [left; exact H|].
  right. exists g. auto.
Qed.

(** C5 as stated fails: the server closes an empty stream, [Predict]
    returns nil, and the callback was not invoked with done=true, nor at
    all. *)
Lemma Predict_success_without_done :
  let run := @Predict Demo.json_table (Demo.server 200 []) Demo.parseDurationMs
               Demo.runner Demo.background [] "Hello" in
  fst run = Ok tt /\
  length (filter Done (callbacks (snd run))) = 0%nat.
Proof.
  vm_compute. split; reflexivity.
Qed.

(** C1, as the code has it: the body ends without a read error, none of
    its events has the stop flag, all of them parse and the context is
    not cancelled while they are read.  Then [Predict] returns nil, and
    all its callbacks were partial results. *)
Theorem Predict_eof_without_stop_returns_nil :
  forall (json : Json) (srv : Server) (parseDurationMs : float64 -> Z)
         (llm : llama) (ctx : GoContext) (prevContext : list Z) (prompt : string)
         (prevConvo : string) (t0 : list Event) (data : string) (code : Z)
         (body : Body),
    Decode srv llm ctx prevContext = (Ok prevConvo, t0) ->
    Marshal_PredictRequest (predict_request llm (prevConvo ++ prompt)) = Ok data ->
    srv (post_request ctx (endpoint_of llm "/completion") data)
      = Responds code body ->
    code < 400 ->
    scan_Err body = None ->
    Forall fragment_line (scan_Lines body) ->
    (forall j, (j < length (scan_Lines body))%nat -> ctx_Done ctx j = false) ->
    let run := Predict srv parseDurationMs llm ctx prevContext prompt in
    fst run = Ok tt /\
    Forall (fun g => Done g = false) (callbacks (snd run)).
Proof.
  intros json srv pd llm ctx prev prompt prevConvo t0 data code body
         Hdec Hm Hs Hc Heof Hfr Hctx run.
  subst run. rewrite (Predict_streaming _ _ _ _ _ _ _ _ _ _ _ Hdec Hm Hs Hc).
  destruct (scanLoop_fragments srv pd llm ctx (scan_Lines body) 0
              (prevConvo ++ prompt) Hfr) as [E P].
  { intros j Hj. apply Hctx. lia. }
  cbn [fst snd]. rewrite E, Heof. split; [reflexivity|].
  rewrite callbacks_app. cbn [callbacks].
  pose proof (quiet_Decode srv llm ctx prev) as Q. unfold quiet in Q.
  rewrite Hdec in Q. cbn [snd] in Q. rewrite Q. exact P.
Qed.

(** The events of [Demo.hi_there] are fragments. *)
Lemma hi_there_fragments :
  Forall (@fragment_line Demo.json_table) Demo.hi_there.
Proof.
  unfold Demo.hi_there.
  repeat (constructor;
          [intros H; first [ discriminate H
                           | eexists; split; vm_compute; reflexivity ]|]).
  constructor.
Defined.

Lemma Predict_eof_without_stop_returns_nil_witness :
  let run := @Predict Demo.json_table (Demo.server 200 Demo.hi_there)
               Demo.parseDurationMs Demo.runner Demo.background [] "Hello" in
  fst run = Ok tt /\
  Forall (fun g => Done g = false) (callbacks (snd run)).
Proof.
  apply (@Predict_eof_without_stop_returns_nil Demo.json_table
           (Demo.server 200 Demo.hi_there) Demo.parseDurationMs Demo.runner
           Demo.background [] "Hello" "" []
           ("{" ++ Demo.quote "stream" ++ ":true," ++ Demo.quote "prompt" ++ ":"
            ++ Demo.quote "Hello" ++ "}")
           200 (Demo.lines_body Demo.hi_there)).
  - reflexivity.
  - reflexivity.
  - reflexivity.
  - lia.
  - reflexivity.
  - exact hi_there_fragments.
  - intros j _. reflexivity.
Defined.

(** C1 as stated fails: the stream ends after two fragments, without a
    stop record and without a read error, and [Predict] returns nil. *)
Lemma Predict_eof_without_stop_is_no_error :
  let body := Demo.lines_body Demo.hi_there in
  let run := @Predict Demo.json_table (Demo.server 200 Demo.hi_there)
               Demo.parseDurationMs Demo.runner Demo.background [] "Hello" in
  scan_Err body = None /\
  map (@Unmarshal_Prediction Demo.json_table) (data_events (scan_Lines body))
    = [Ok (Demo.fragment "Hi"); Ok (Demo.fragment " there")] /\
  fst run = Ok tt /\
  callbacks (snd run) = [partial_response "Hi"; partial_response " there"].
Proof.
  vm_compute. repeat split; reflexivity.
Qed.

(** C2, as the code has it: the stream delivers two fragments and then
    the stop record, the context is not cancelled and [Encode] of the
    accumulated text succeeds.  The callback is then invoked once for
    each of the three records with its content as a partial result, the
    stop record included, and a fourth and last time with done=true and
    the tokens [Encode] returned; [Predict] returns nil. *)
Theorem Predict_two_fragments_then_stop :
  forall (json : Json) (srv : Server) (parseDurationMs : float64 -> Z)
         (llm : llama) (ctx : GoContext) (prevContext : list Z) (prompt : string)
         (prevConvo : string) (t0 : list Event) (data : string) (code : Z)
         (body : Body) (e1 e2 e3 : string) (p1 p2 p3 : Prediction)
         (embd : list Z) (t3 : list Event),
    Decode srv llm ctx prevContext = (Ok prevConvo, t0) ->
    Marshal_PredictRequest (predict_request llm (prevConvo ++ prompt)) = Ok data ->
    srv (post_request ctx (endpoint_of llm "/completion") data)
      = Responds code body ->
    code < 400 ->
    (forall j, (j < length (scan_Lines body))%nat -> ctx_Done ctx j = false) ->
    data_events (scan_Lines body) = [e1; e2; e3] ->
    Unmarshal_Prediction e1 = Ok p1 -> p_Stop p1 = false ->
    Unmarshal_Prediction e2 = Ok p2 -> p_Stop p2 = false ->
    Unmarshal_Prediction e3 = Ok p3 -> p_Stop p3 = true ->
    Encode srv llm ctx
      ((((prevConvo ++ prompt) ++ p_Content p1) ++ p_Content p2) ++ p_Content p3)
      = (Ok embd, t3) ->
    let run := Predict srv parseDurationMs llm ctx prevContext prompt in
    fst run = Ok tt /\
    callbacks (snd run) =
      [ partial_response (p_Content p1);
        partial_response (p_Content p2);
        partial_response (p_Content p3);
        final_response parseDurationMs embd p3 ].
Proof.
  intros json srv pd llm ctx prev prompt prevConvo t0 data code body
         e1 e2 e3 p1 p2 p3 embd t3
         Hdec Hm Hs Hc Hctx Hev H1 S1 H2 S2 H3 S3 Henc run.
  subst run. rewrite (Predict_streaming _ _ _ _ _ _ _ _ _ _ _ Hdec Hm Hs Hc).
  rewrite scanLoop_as_events by (intros j Hj; apply Hctx; lia).
  rewrite Hev. cbn [eventLoop].
  rewrite H1, lift_Ok, bind_ret, S1, bind_emit.
  cbn [eventLoop].
  rewrite H2, lift_Ok, bind_ret, S2, bind_emit.
  cbn [eventLoop].
  rewrite H3, lift_Ok, bind_ret, S3, bind_emit.
  rewrite Henc. cbn [mapErr].
  erewrite bind_Ok by reflexivity. rewrite bind_emit.
  cbn [fst snd ret stream_result].
  split; [reflexivity|].
  pose proof (quiet_Decode srv llm ctx prev) as Q0. unfold quiet in Q0.
  rewrite Hdec in Q0. cbn [snd] in Q0.
  pose proof (quiet_Encode srv llm ctx
    ((((prevConvo ++ prompt) ++ p_Content p1) ++ p_Content p2) ++ p_Content p3))
    as Q3.
  unfold quiet in Q3. rewrite Henc in Q3. cbn [snd] in Q3.
  rewrite callbacks_app, Q0. cbn [callbacks app].
  rewrite callbacks_app, Q3. reflexivity.
Qed.

Lemma Predict_two_fragments_then_stop_witness :
  let run := @Predict Demo.json_table (Demo.server 200 Demo.hi_there_stop)
               Demo.parseDurationMs Demo.runner Demo.background [] "Hello" in
  fst run = Ok tt /\
  callbacks (snd run) =
    [ partial_response "Hi";
      partial_response " there";
      partial_response "";
      final_response Demo.parseDurationMs [1; 2; 3; 4; 5] Demo.stop_record ].
Proof.
  apply (@Predict_two_fragments_then_stop Demo.json_table
           (Demo.server 200 Demo.hi_there_stop) Demo.parseDurationMs Demo.runner
           Demo.background [] "Hello" "" []
           ("{" ++ Demo.quote "stream" ++ ":true," ++ Demo.quote "prompt" ++ ":"
            ++ Demo.quote "Hello" ++ "}")
           200 (Demo.lines_body Demo.hi_there_stop)
           (Demo.fragment_json "Hi") (Demo.fragment_json " there") Demo.stop_json
           (Demo.fragment "Hi") (Demo.fragment " there") Demo.stop_record
           [1; 2; 3; 4; 5]
           [Sent (post_request Demo.background
                    (endpoint_of Demo.runner "/tokenize")
                    (Demo.content_json "HelloHi there"))]).
  - reflexivity.
  - reflexivity.
  - reflexivity.
  - lia.
  - intros j _. reflexivity.
  - reflexivity.
  - reflexivity.
  - reflexivity.
  - reflexivity.
  - reflexivity.
  - reflexivity.
  - reflexivity.
  - reflexivity.
Defined.

(** C2 as stated fails: on the two fragments ["Hi"] and [" there"] and
    the stop record, the callback gets three partial results before the
    final one, not two: the stop record's own content is sent too. *)
Lemma Predict_stop_record_is_a_third_partial :
  let run := @Predict Demo.json_table (Demo.server 200 Demo.hi_there_stop)
               Demo.parseDurationMs Demo.runner Demo.background [] "Hello" in
  map (@Unmarshal_Prediction Demo.json_table)
      (data_events Demo.hi_there_stop)
    = [Ok (Demo.fragment "Hi"); Ok (Demo.fragment " there"); Ok Demo.stop_record] /\
  fst run = Ok tt /\
  length (filter (fun g => negb (Done g)) (callbacks (snd run))) = 3%nat /\
  length (filter Done (callbacks (snd run))) = 1%nat.
Proof.
  vm_compute. repeat split; reflexivity.
Qed.



(** ** Status codes *)

Section StatusFacts.

Context {json : Json}.
Variable srv : Server.
Variable parseDurationMs : float64 -> Z.
Variable llm : llama.
Variable ctx : GoContext.
Variables (code : Z) (body : Body) (text : string).
Hypothesis code_400 : 400 <= code.
Hypothesis body_read : io_ReadAll body = Ok text.

Lemma code_geb : (code >=? 400) = true.
Proof.
  apply Z.geb_le. exact code_400.
Qed.

Lemma Encode_status prompt data :
  Marshal_TokenizeRequest {| tq_Content := prompt |} = Ok data ->
  srv (post_request ctx (endpoint_of llm "/tokenize") data) = Responds code body ->
  fst (Encode srv llm ctx prompt) = Err (errorString text).
Proof.
  intros Hm Hs. unfold Encode, post. rewrite Hm, lift_Ok, bind_ret, Hs.
  rewrite bind_emit. cbn [fst snd ret]. erewrite bind_Ok by reflexivity.
  cbn [fst snd]. rewrite body_read, lift_Ok, bind_ret, code_geb. reflexivity.
Qed.

Lemma Decode_status tokens data :
  tokens <> [] ->
  Marshal_DetokenizeRequest {| dq_Tokens := tokens |} = Ok data ->
  srv (post_request ctx (endpoint_of llm "/detokenize") data) = Responds code body ->
  fst (Decode srv llm ctx tokens) = Err (errorString text).
Proof.
  intros Hne Hm Hs. unfold Decode, post.
  destruct tokens as [|t ts]; [congruence|]. cbn [length Nat.eqb].
  rewrite Hm, lift_Ok, bind_ret, Hs.
  rewrite bind_emit. cbn [fst snd ret]. erewrite bind_Ok by reflexivity.
  cbn [fst snd]. rewrite body_read, lift_Ok, bind_ret, code_geb. reflexivity.
Qed.

Lemma Embedding_status input data :
  Marshal_TokenizeRequest {| tq_Content := input |} = Ok data ->
  srv (post_request ctx (endpoint_of llm "/embedding") data) = Responds code body ->
  fst (Embedding srv llm ctx input) = Err (errorString text).
Proof.
  intros Hm Hs. unfold Embedding, post. rewrite Hm, lift_Ok, bind_ret, Hs.
  rewrite bind_emit. cbn [fst snd ret]. erewrite bind_Ok by reflexivity.
  cbn [fst snd]. rewrite body_read, lift_Ok, bind_ret, code_geb. reflexivity.
Qed.

Lemma Predict_status prevContext prompt prevConvo t0 data :
  Decode srv llm ctx prevContext = (Ok prevConvo, t0) ->
  Marshal_PredictRequest (predict_request llm (prevConvo ++ prompt)) = Ok data ->
  srv (post_request ctx (endpoint_of llm "/completion") data) = Responds code body ->
  fst (Predict srv parseDurationMs llm ctx prevContext prompt)
    = Err (errorString text).
Proof.
  intros Hdec Hm Hs. unfold Predict, post.
  rewrite (bind_Ok _ _ _ _ Hdec). cbv beta zeta.
  rewrite Hm, lift_Ok, bind_ret, Hs.
  rewrite bind_emit. cbn [fst snd ret]. erewrite bind_Ok by reflexivity.
  cbn [fst snd]. rewrite code_geb, body_read, lift_Ok, bind_ret. reflexivity.
Qed.

End StatusFacts.

(** C7, as the code has it: when the server answers [Encode], [Decode],
    [Embedding] or the completion request of [Predict] with a status of
    400 or more and the body of the answer can be read, the call fails
    with an error whose message is that body, as it came. *)
Theorem status_400_fails_with_body :
  forall (json : Json) (srv : Server) (parseDurationMs : float64 -> Z)
         (llm : llama) (ctx : GoContext) (code : Z) (body : Body) (text : string),
    400 <= code ->
    io_ReadAll body = Ok text ->
    Error (errorString text) = text /\
    (forall prompt data,
        Marshal_TokenizeRequest {| tq_Content := prompt |} = Ok data ->
        srv (post_request ctx (endpoint_of llm "/tokenize") data)
          = Responds code body ->
        fst (Encode srv llm ctx prompt) = Err (errorString text)) /\
    (forall tokens data,
        tokens <> [] ->
        Marshal_DetokenizeRequest {| dq_Tokens := tokens |} = Ok data ->
        srv (post_request ctx (endpoint_of llm "/detokenize") data)
          = Responds code body ->
        fst (Decode srv llm ctx tokens) = Err (errorString text)) /\
    (forall input data,
        Marshal_TokenizeRequest {| tq_Content := input |} = Ok data ->
        srv (post_request ctx (endpoint_of llm "/embedding") data)
          = Responds code body ->
        fst (Embedding srv llm ctx input) = Err (errorString text)) /\
    (forall prevContext prompt prevConvo t0 data,
        Decode srv llm ctx prevContext = (Ok prevConvo, t0) ->
        Marshal_PredictRequest (predict_request llm (prevConvo ++ prompt))
          = Ok data ->
        srv (post_request ctx (endpoint_of llm "/completion") data)
          = Responds code body ->
        fst (Predict srv parseDurationMs llm ctx prevContext prompt)
          = Err (errorString text)).
Proof.
  intros json srv pd llm ctx code body text Hc Hr.
  split; [reflexivity|]. split; [|split; [|split]].
  - intros. eapply Encode_status; eauto.
  - intros. eapply Decode_status; eauto.
  - intros. eapply Embedding_status; eauto.
  - intros. eapply Predict_status; eauto.
Qed.

(** The server answers everything with 500 and ["model not loaded"]. *)
Lemma status_400_fails_with_body_witness :
  let srv := Demo.refusing 500 "model not loaded" in
  fst (@Encode Demo.json_table srv Demo.runner Demo.background "Hello")
    = Err (errorString "model not loaded") /\
  fst (@Decode Demo.json_table srv Demo.runner Demo.background [1; 2])
    = Err (errorString "model not loaded") /\
  fst (@Embedding Demo.json_table srv Demo.runner Demo.background "Hello")
    = Err (errorString "model not loaded") /\
  fst (@Predict Demo.json_table srv Demo.parseDurationMs Demo.runner
         Demo.background [] "Hello")
    = Err (errorString "model not loaded").
Proof.
  destruct (@status_400_fails_with_body Demo.json_table
              (Demo.refusing 500 "model not loaded") Demo.parseDurationMs
              Demo.runner Demo.background 500
              (Demo.text_body "model not loaded") "model not loaded")
    as (_ & Henc & Hdec & Hemb & Hpre).
  - lia.
  - reflexivity.
  - split; [|split; [|split]].
    + eapply Henc; reflexivity.
    + eapply Hdec; [discriminate|reflexivity|reflexivity].
    + eapply Hemb; reflexivity.
    + eapply (Hpre [] "Hello" "" []); reflexivity.
Defined.

(** C7 as stated fails: 300 is not a 2xx status, and [Encode] returns
    the tokens of a response that has it. *)
Lemma Encode_accepts_status_300 :
  let srv := Demo.server 300 [] in
  srv (post_request Demo.background (endpoint_of Demo.runner "/tokenize")
         (Demo.content_json "Hello"))
    = Responds 300 (Demo.text_body Demo.tokens_json) /\
  @Encode Demo.json_table srv Demo.runner Demo.background "Hello"
    = (Ok [1; 2; 3; 4; 5],
       [Sent (post_request Demo.background (endpoint_of Demo.runner "/tokenize")
                (Demo.content_json "Hello"))]).
Proof.
  vm_compute. split; reflexivity.
Qed.

(** C3: the server detokenizes to [" Hello"], with the leading space the
    comment in [Decode] speaks of, and [Decode] returns [" Hello"], the
    space included: the prefix it cuts is the empty string. *)
Theorem Decode_keeps_leading_space :
  let srv := Demo.server 200 [] in
  @Unmarshal_DetokenizeResponse Demo.json_table (Demo.content_json " Hello")
    = Ok {| ds_Content := " Hello" |} /\
  fst (@Decode Demo.json_table srv Demo.runner Demo.background [1; 2])
    = Ok " Hello" /\
  CutPrefix " Hello" "" = (" Hello", true).
Proof.
  vm_compute. repeat split; reflexivity.
Qed.

(** ** The supervisor *)

Section SupervisorFacts.

Variable Sprintf_f : float32 -> string.
Variable h : Host.

Lemma try_port_range (try : nat) : 49152 <= try_port h try < 65535.
Proof.
  unfold try_port, rand_Intn.
  pose proof (Z.mod_pos_bound (rand_Int63 h try) (65535 - 49152)). lia.
Qed.

(** The fixed head of [params]. *)
Lemma params_head model adapters opts :
  exists tail,
    params Sprintf_f model adapters opts =
      ([ "--model"; model;
         "--ctx-size"; Itoa (NumCtx opts);
         "--rope-freq-base"; Sprintf_f (RopeFrequencyBase opts);
         "--rope-freq-scale"; Sprintf_f (RopeFrequencyScale opts);
         "--batch-size"; Itoa (NumBatch opts);
         "--n-gpu-layers"; "48";
         "--embedding" ] ++ tail)%list.
Proof.
  unfold params. change (Itoa (NumGPU opts)) with "48".
  repeat rewrite <- app_assoc.
  repeat match goal with
         | |- context [if ?b then _ else _] => destruct b
         | |- context [match ?l with [] => _ | _ :: _ => _ end] => destruct l
         end;
    repeat rewrite <- app_assoc; eexists; cbn [app]; reflexivity.
Qed.

Lemma params_n_gpu_layers model adapters opts tail :
  follows "--n-gpu-layers" "48" (params Sprintf_f model adapters opts ++ tail).
Proof.
  destruct (params_head model adapters opts) as [rest E]. rewrite E.
  eexists [ "--model"; model; "--ctx-size"; Itoa (NumCtx opts);
            "--rope-freq-base"; Sprintf_f (RopeFrequencyBase opts);
            "--rope-freq-scale"; Sprintf_f (RopeFrequencyScale opts);
            "--batch-size"; Itoa (NumBatch opts) ], _.
  cbn [app]. reflexivity.
Qed.

(** With the ticker on time, [waitForServer] is over by tick 225, the
    first one later than [expiresAt]. *)
Lemma waitTicks_returns llm try :
  ticker_on_time h ->
  forall n i fuel,
    (i + n = 225)%nat -> (n < fuel)%nat ->
    exists r,
      waitTicks h llm try (time_Now_begin h try + 45 * Second) fuel i = Some r.
Proof.
  intros Htick. induction n as [|n IH]; intros i fuel Hi Hf;
    (destruct fuel as [|fuel]; [lia|]); cbn [waitTicks].
  - assert (E : (time_Now_tick h try i >? time_Now_begin h try + 45 * Second) = true).
    { apply Z.gtb_lt. specialize (Htick try i).
      unfold Second, Millisecond in *. lia. }
    rewrite E. eexists. reflexivity.
  - destruct (time_Now_tick h try i >? _); [eexists; reflexivity|].
    destruct (Ping h llm try i); [|eexists; reflexivity].
    apply IH; lia.
Qed.

Lemma waitForServer_returns llm try fuel :
  ticker_on_time h -> (226 <= fuel)%nat ->
  exists r, waitForServer h llm try fuel = Some r.
Proof.
  intros Htick Hf. unfold waitForServer.
  apply (waitTicks_returns llm try Htick 225 0 fuel); lia.
Qed.

(** When [waitForServer] returns nil, [Ping] has succeeded at a tick. *)
Lemma waitTicks_ready llm try expiresAt :
  forall fuel i,
    waitTicks h llm try expiresAt fuel i = Some None ->
    exists j, Ping h llm try j = None.
Proof.
  induction fuel as [|fuel IH]; intros i H; cbn [waitTicks] in H;
    [discriminate|].
  destruct (time_Now_tick h try i >? expiresAt); [discriminate|].
  destruct (Ping h llm try i) eqn:E; [apply (IH _ H)|].
  exists i. exact E.
Qed.

Section Loop.

Variables (ps : list string) (runner : ModelRunner) (opts : Options).
Variable fuel : nat.
Hypothesis on_time : ticker_on_time h.
Hypothesis enough : (226 <= fuel)%nat.

Local Abbreviation ready j := (attempt_ready h fuel (try_llama h ps runner opts j) j).
Local Abbreviation outcome := (loop_outcome h ps runner opts fuel).
Local Abbreviation exhausted :=
  (@Err llama (errorString "max retry exceeded starting llama.cpp")).

(** A failed attempt [try], with events [pre] and one spawn among them,
    leaves the outcome to the attempts after it. *)
Lemma loop_outcome_retry left try r t pre :
  ready try = false ->
  spawns pre = [(Port (try_llama h ps runner opts try),
                 Cmd_Args (try_llama h ps runner opts try))] ->
  outcome left (S try) r t ->
  outcome (S left) try r (pre ++ t).
Proof.
  intros Hfail Hpre (Hlen & Hall & Hnone & Hsome).
  unfold loop_outcome. rewrite spawns_app, Hpre. cbn [app length].
  split; [lia|]. split; [|split].
  - constructor.
    + exists try. split; [lia|reflexivity].
    + eapply Forall_impl; [|exact Hall].
      intros s (j & Hj & E). exists j. split; [lia|exact E].
  - intros Hdead. destruct Hnone as [E L].
    + intros j Hj. apply Hdead. lia.
    + split; [exact E|lia].
  - intros j Hj Hready Hbefore.
    assert (j <> try) by (intros ->; congruence).
    destruct (Hsome j) as [E L]; [lia|exact Hready| |].
    + intros j' Hj'. apply Hbefore. lia.
    + split; [exact E|lia].
Qed.

Lemma startLoop_outcome :
  forall left try,
  exists r t,
    startLoop h ps runner opts fuel left try = Some (r, t) /\
    outcome left try r t.
Proof.
  induction left as [|left IH]; intros try.
  - exists exhausted, []. split; [reflexivity|].
    unfold loop_outcome. cbn [spawns length].
    split; [lia|]. split; [constructor|]. split.
    + intros _. split; reflexivity.
    + intros j Hj. lia.
  - destruct (IH (S try)) as (r & t & Hrun & Hout).
    cbn [startLoop]. unfold attempt_ready in *.
    destruct (cmd_Start h try _ _) eqn:Hstart.
    { rewrite Hrun. eexists r, _. split; [reflexivity|].
      apply loop_outcome_retry; [|reflexivity|exact Hout].
      unfold attempt_ready. rewrite Hstart. reflexivity. }
    destruct (waitForServer_returns (try_llama h ps runner opts try) try fuel
                on_time enough) as [w Hw].
    rewrite Hw. destruct w as [err|].
    { rewrite Hrun. eexists r, _. split; [reflexivity|].
      apply loop_outcome_retry; [|reflexivity|exact Hout].
      unfold attempt_ready. rewrite Hstart, Hw. reflexivity. }
    eexists _, _. split; [reflexivity|].
    assert (Hready : ready try = true)
      by (unfold attempt_ready; rewrite Hstart, Hw; reflexivity).
    unfold loop_outcome. cbn [spawns length].
    split; [lia|]. split; [|split].
    + constructor; [|constructor]. exists try. split; [lia|reflexivity].
    + intros Hdead. rewrite Hdead in Hready by lia. discriminate.
    + intros j Hj Hj_ready Hbefore.
      destruct (Nat.eq_dec j try) as [->|Hne].
      * rewrite Nat.sub_diag. split; reflexivity.
      * rewrite (Hbefore try) in Hready by lia. discriminate.
Qed.

End Loop.

End SupervisorFacts.

(** Whatever the loop of [newLlama] spawns is the command of one of its
    attempts; no hypothesis on the clock is needed for that. *)
Lemma startLoop_spawns (h : Host) (ps : list string) (runner : ModelRunner)
    (opts : Options) (fuel : nat) :
  forall left try r t,
    startLoop h ps runner opts fuel left try = Some (r, t) ->
    Forall (fun s => exists j, snd s = Cmd_Args (try_llama h ps runner opts j))
           (spawns t).
Proof.
  induction left as [|left IH]; intros try r t H; cbn [startLoop] in H.
  - inversion H; subst. constructor.
  - destruct (cmd_Start h try _ _).
    + destruct (startLoop h ps runner opts fuel left (S try))
        as [[r' t']|] eqn:Hrec; [|discriminate].
      cbn [after] in H. inversion H; subst. cbn [app spawns].
      constructor; [exists try; reflexivity|apply (IH _ _ _ Hrec)].
    + destruct (waitForServer h _ try fuel) as [[err|]|]; [| |discriminate].
      * destruct (startLoop h ps runner opts fuel left (S try))
          as [[r' t']|] eqn:Hrec; [|discriminate].
        cbn [after] in H. inversion H; subst. cbn [app spawns].
        constructor; [exists try; reflexivity|apply (IH _ _ _ Hrec)].
      * inversion H; subst. cbn [spawns].
        constructor; [exists try; reflexivity|constructor].
Qed.

(** C9: [NumGPU] is 48 whatever the options, the field [NumGPU] among
    them, say; and in every command [newLlama] spawns, ["48"] is the
    argument that follows ["--n-gpu-layers"]. *)
Theorem NumGPU_is_48_in_every_spawn :
  forall (Sprintf_f : float32 -> string) (h : Host) (fuel : nat)
         (model : string) (adapters : list string) (runner : ModelRunner)
         (opts : Options),
    NumGPU opts = 48 /\
    follows "--n-gpu-layers" "48" (params Sprintf_f model adapters opts) /\
    (forall r t,
        newLlama Sprintf_f h fuel model adapters runner opts = Some (r, t) ->
        Forall (fun s => follows "--n-gpu-layers" "48" (snd s)) (spawns t)).
Proof.
  intros Sprintf_f h fuel model adapters runner opts.
  split; [reflexivity|]. split.
  - rewrite <- (app_nil_r (params _ _ _ _)). apply params_n_gpu_layers.
  - intros r t H. unfold newLlama in H.
    destruct (os_Stat h model); [inversion H; constructor|].
    destruct (os_Stat h (Path runner)); [inversion H; constructor|].
    destruct (1 <? length adapters)%nat; [inversion H; constructor|].
    eapply Forall_impl; [|apply (startLoop_spawns _ _ _ _ _ _ _ _ _ H)].
    intros s [j E]. rewrite E. unfold try_llama. cbn [Cmd_Args].
    apply params_n_gpu_layers.
Qed.

(** The caller asks for one GPU layer; every spawn gets 48. *)
Lemma NumGPU_is_48_in_every_spawn_witness :
  NumGPU_opt Demo.zero_options = 1 /\
  exists r t,
    newLlama Demo.Sprintf_f Demo.host 226 "/models/llama.bin" []
      Demo.model_runner Demo.zero_options = Some (r, t) /\
    length (spawns t) = 3%nat /\
    Forall (fun s => follows "--n-gpu-layers" "48" (snd s)) (spawns t).
Proof.
  split; [reflexivity|].
  eexists _, _. split; [vm_compute; reflexivity|]. split; [reflexivity|].
  eapply (proj2 (proj2 (NumGPU_is_48_in_every_spawn Demo.Sprintf_f Demo.host 226
                         "/models/llama.bin" [] Demo.model_runner
                         Demo.zero_options))).
  vm_compute. reflexivity.
Defined.



(** * More properties of the package *)

(** ** File types *)

Ltac file_type_cases :=
  unfold fileType_String, llamaFileTypeF32, llamaFileTypeF16, llamaFileTypeQ4_0,
    llamaFileTypeQ4_1, llamaFileTypeQ4_1_F16, llamaFileTypeQ8_0,
    llamaFileTypeQ5_0, llamaFileTypeQ5_1, llamaFileTypeQ2_K,
    llamaFileTypeQ3_K_S, llamaFileTypeQ3_K_M, llamaFileTypeQ3_K_L,
    llamaFileTypeQ4_K_S, llamaFileTypeQ4_K_M, llamaFileTypeQ5_K_S,
    llamaFileTypeQ5_K_M, llamaFileTypeQ6_K in *.

(** X1: a file type in the range of [uint32] prints as ["Unknown"]
    exactly when it is 5, 6 or more than 18: the constants skip 5 and 6,
    [llamaFileTypeQ8_0] being 7. *)
Theorem fileType_String_unknown_iff :
  forall ft : llamaFileType,
    0 <= ft < 2 ^ 32 ->
    (fileType_String ft = "Unknown" <-> ft = 5 \/ ft = 6 \/ 18 < ft).
Proof.
  intros ft Hrange. file_type_cases. cbn [Z.add].
  repeat match goal with
         | |- context [ft =? ?k] => destruct (Z.eqb_spec ft k); [subst; split; [discriminate|lia]|]
         end.
  split; [lia|reflexivity].
Qed.

Lemma fileType_String_unknown_iff_witness :
  (fileType_String 5 = "Unknown" <-> 5 = 5 \/ 5 = 6 \/ 18 < 5) /\
  (fileType_String llamaFileTypeQ8_0 = "Unknown"
   <-> llamaFileTypeQ8_0 = 5 \/ llamaFileTypeQ8_0 = 6 \/ 18 < llamaFileTypeQ8_0).
Proof.
  split; apply fileType_String_unknown_iff; unfold llamaFileTypeQ8_0; lia.
Defined.

(** The name of a known file type tells the type. *)
Lemma fileType_of_name (ft : llamaFileType) :
  fileType_String ft <> "Unknown" ->
  ft = (if String.eqb (fileType_String ft) "F32" then 0
        else if String.eqb (fileType_String ft) "F16" then 1
        else if String.eqb (fileType_String ft) "Q4_0" then 2
        else if String.eqb (fileType_String ft) "Q4_1" then 3
        else if String.eqb (fileType_String ft) "Q4_1_F16" then 4
        else if String.eqb (fileType_String ft) "Q8_0" then 7
        else if String.eqb (fileType_String ft) "Q5_0" then 8
        else if String.eqb (fileType_String ft) "Q5_1" then 9
        else if String.eqb (fileType_String ft) "Q2_K" then 10
        else if String.eqb (fileType_String ft) "Q3_K_S" then 11
        else if String.eqb (fileType_String ft) "Q3_K_M" then 12
        else if String.eqb (fileType_String ft) "Q3_K_L" then 13
        else if String.eqb (fileType_String ft) "Q4_K_S" then 14
        else if String.eqb (fileType_String ft) "Q4_K_M" then 15
        else if String.eqb (fileType_String ft) "Q5_K_S" then 16
        else if String.eqb (fileType_String ft) "Q5_K_M" then 17
        else 18).
Proof.
  file_type_cases. cbn [Z.add].
  repeat match goal with
         | |- context [ft =? ?k] => destruct (Z.eqb_spec ft k); [subst; intros _; reflexivity|]
         end.
  intros H. congruence.
Qed.

(** X2: two file types with the same name, one that is not ["Unknown"],
    are the same file type: no two constants share a name. *)
Theorem fileType_String_injective :
  forall a b : llamaFileType,
    fileType_String a <> "Unknown" ->
    fileType_String a = fileType_String b ->
    a = b.
Proof.
  intros a b Ha Hab.
  assert (Hb : fileType_String b <> "Unknown") by congruence.
  rewrite (fileType_of_name a Ha), (fileType_of_name b Hb), Hab. reflexivity.
Qed.

Lemma fileType_String_injective_witness : llamaFileTypeQ4_K_M = 15.
Proof.
  apply fileType_String_injective; [vm_compute; discriminate|reflexivity].
Defined.

(** ** The supervisor, on its other paths *)

(** X3: when the model file or the runner is missing, or more than one
    adapter is given, [newLlama] returns an error and has spawned
    nothing: its trace is empty. *)
Theorem newLlama_validates_first :
  forall (Sprintf_f : float32 -> string) (h : Host) (fuel : nat)
         (model : string) (adapters : list string) (runner : ModelRunner)
         (opts : Options),
    os_Stat h model <> None \/ os_Stat h (Path runner) <> None
      \/ (1 < length adapters)%nat ->
    exists err,
      newLlama Sprintf_f h fuel model adapters runner opts = Some (Err err, []) /\
      (os_Stat h model = Some err \/
       os_Stat h (Path runner) = Some err \/
       err = errorString
               "ollama supports only one lora adapter, but multiple were provided").
Proof.
  intros Sprintf_f h fuel model adapters runner opts H. unfold newLlama.
  destruct (os_Stat h model) as [e|] eqn:Hm; [exists e; auto|].
  destruct (os_Stat h (Path runner)) as [e|] eqn:Hr; [exists e; auto|].
  destruct H as [H|[H|H]]; [congruence|congruence|].
  apply Nat.ltb_lt in H. rewrite H. eexists. split; [reflexivity|auto].
Qed.

Lemma newLlama_validates_first_witness :
  exists err,
    newLlama Demo.Sprintf_f Demo.host 0 "/models/llama.bin" ["a"; "b"]
      Demo.model_runner Demo.zero_options = Some (Err err, []) /\
    (os_Stat Demo.host "/models/llama.bin" = Some err \/
     os_Stat Demo.host (Path Demo.model_runner) = Some err \/
     err = errorString
             "ollama supports only one lora adapter, but multiple were provided").
Proof.
  apply newLlama_validates_first. right. right. simpl. lia.
Defined.

Section RetryFacts.

Variable h : Host.
Variables (ps : list string) (runner : ModelRunner) (opts : Options).
Variable fuel : nat.

(** An error of the loop is its last line: every iteration was used,
    and every process that started has been closed. *)
Lemma startLoop_Err :
  forall left try e t,
    startLoop h ps runner opts fuel left try = Some (Err e, t) ->
    e = errorString "max retry exceeded starting llama.cpp" /\
    length (spawns t) = left /\
    closes t = flat_map (running_port h ps runner opts) (seq try left).
Proof.
  induction left as [|left IH]; intros try e t H; cbn [startLoop] in H.
  - inversion H; subst. repeat split.
  - unfold running_port at 1. cbn [seq flat_map].
    destruct (cmd_Start h try _ _).
    + destruct (startLoop h ps runner opts fuel left (S try))
        as [[r' t']|] eqn:Hrec; [|discriminate].
      cbn [after] in H. inversion H; subst.
      destruct (IH _ _ _ Hrec) as (E & L & C).
      cbn [app spawns closes length]. rewrite L, C. auto.
    + destruct (waitForServer h _ try fuel) as [[err|]|]; [| |discriminate].
      * destruct (startLoop h ps runner opts fuel left (S try))
          as [[r' t']|] eqn:Hrec; [|discriminate].
        cbn [after] in H. inversion H; subst.
        destruct (IH _ _ _ Hrec) as (E & L & C).
        cbn [app spawns closes length Close emit snd]. rewrite L, C. auto.
      * inversion H.
Qed.

(** A [llama] the loop returns is that of one of its attempts, whose
    server answered, and its start is the last event. *)
Lemma startLoop_Ok :
  forall left try llm t,
    startLoop h ps runner opts fuel left try = Some (Ok llm, t) ->
    exists j pre,
      (try <= j < try + left)%nat /\
      llm = try_llama h ps runner opts j /\
      t = (pre ++ [Started (Port llm) (Cmd_Args llm)])%list /\
      waitForServer h llm j fuel = Some None.
Proof.
  induction left as [|left IH]; intros try llm t H; cbn [startLoop] in H.
  - inversion H.
  - destruct (cmd_Start h try _ _).
    + destruct (startLoop h ps runner opts fuel left (S try))
        as [[r' t']|] eqn:Hrec; [|discriminate].
      cbn [after] in H. inversion H; subst.
      destruct (IH _ _ _ Hrec) as (j & pre & Hj & E & T & W).
      exists j, (Started (Port (try_llama h ps runner opts try))
                         (Cmd_Args (try_llama h ps runner opts try)) :: pre).
      split; [lia|]. split; [exact E|]. split; [|exact W].
      rewrite T. reflexivity.
    + destruct (waitForServer h _ try fuel) as [[err|]|] eqn:W; [| |discriminate].
      * destruct (startLoop h ps runner opts fuel left (S try))
          as [[r' t']|] eqn:Hrec; [|discriminate].
        cbn [after] in H. inversion H; subst.
        destruct (IH _ _ _ Hrec) as (j & pre & Hj & E & T & W').
        eexists j, (_ :: _ :: pre).
        split; [lia|]. split; [exact E|]. split; [|exact W'].
        rewrite T. reflexivity.
      * inversion H; subst. exists try, [].
        split; [lia|]. split; [reflexivity|]. split; [reflexivity|exact W].
Qed.

End RetryFacts.

(** X4: once the model, the runner and the adapters have passed, the
    only error of [newLlama] is that of exhaustion; it comes after three
    spawns, and every process whose [cmd.Start()] succeeded has been
    closed, in order, and no other. *)
Theorem newLlama_error_leaves_no_process :
  forall (Sprintf_f : float32 -> string) (h : Host) (fuel : nat)
         (model : string) (adapters : list string) (runner : ModelRunner)
         (opts : Options) (e : error) (t : list Event),
    os_Stat h model = None ->
    os_Stat h (Path runner) = None ->
    (length adapters <= 1)%nat ->
    newLlama Sprintf_f h fuel model adapters runner opts = Some (Err e, t) ->
    e = errorString "max retry exceeded starting llama.cpp" /\
    length (spawns t) = 3%nat /\
    closes t =
      flat_map (running_port h (params Sprintf_f model adapters opts) runner opts)
               [0; 1; 2]%nat.
Proof.
  intros Sprintf_f h fuel model adapters runner opts e t Hm Hr Ha H.
  unfold newLlama in H. rewrite Hm, Hr in H.
  destruct (1 <? length adapters)%nat eqn:E.
  { apply Nat.ltb_lt in E. lia. }
  apply (startLoop_Err _ _ _ _ _ _ _ _ _ H).
Qed.

(** On [Demo.dead_host] three servers start and none answers: the three
    are closed. *)
Lemma newLlama_error_leaves_no_process_witness :
  exists t,
    newLlama Demo.Sprintf_f Demo.dead_host 226 "/models/llama.bin" ["a"]
      Demo.model_runner Demo.zero_options
      = Some (Err (errorString "max retry exceeded starting llama.cpp"), t) /\
    length (spawns t) = 3%nat /\
    closes t = [49789; 49796; 49803].
Proof.
  eexists. split; [vm_compute; reflexivity|].
  refine (proj2 (newLlama_error_leaves_no_process Demo.Sprintf_f Demo.dead_host
                   226 "/models/llama.bin" ["a"] Demo.model_runner
                   Demo.zero_options _ _ _ _ _ _)).
  - reflexivity.
  - reflexivity.
  - simpl. lia.
  - vm_compute. reflexivity.
Defined.

(** X5: a [llama] that [newLlama] returns was started last: no event
    follows its start, so it has not been closed.  It carries the
    options given, its port is one of [49152, 65535), its arguments are
    [params] and then ["--port"] and that very port in decimal, and its
    server has answered a [Ping]. *)
Theorem newLlama_returns_running :
  forall (Sprintf_f : float32 -> string) (h : Host) (fuel : nat)
         (model : string) (adapters : list string) (runner : ModelRunner)
         (opts : Options) (llm : llama) (t : list Event),
    newLlama Sprintf_f h fuel model adapters runner opts = Some (Ok llm, t) ->
    (exists pre, t = (pre ++ [Started (Port llm) (Cmd_Args llm)])%list) /\
    l_Options llm = opts /\
    Cmd_Path llm = Path runner /\
    Cmd_Args llm =
      (params Sprintf_f model adapters opts ++ ["--port"; Itoa (Port llm)])%list /\
    49152 <= Port llm < 65535 /\
    exists try i, (try < 3)%nat /\ Ping h llm try i = None.
Proof.
  intros Sprintf_f h fuel model adapters runner opts llm t H.
  unfold newLlama in H.
  destruct (os_Stat h model); [discriminate|].
  destruct (os_Stat h (Path runner)); [discriminate|].
  destruct (1 <? length adapters)%nat; [discriminate|].
  destruct (startLoop_Ok _ _ _ _ _ _ _ _ _ H) as (j & pre & Hj & E & T & W).
  split; [exists pre; exact T|].
  rewrite E in *. cbn [try_llama l_Options Cmd_Path Cmd_Args Port].
  repeat split; try apply try_port_range.
  destruct (waitTicks_ready h _ _ _ _ _ W) as [i Hi].
  exists j, i. split; [lia|exact Hi].
Qed.

Lemma newLlama_returns_running_witness :
  exists llm t,
    newLlama Demo.Sprintf_f Demo.host 226 "/models/llama.bin" []
      Demo.model_runner Demo.zero_options = Some (Ok llm, t) /\
    Port llm = 49803 /\
    Cmd_Args llm =
      (params Demo.Sprintf_f "/models/llama.bin" [] Demo.zero_options
         ++ ["--port"; Itoa (Port llm)])%list.
Proof.
  eexists _, _. split; [vm_compute; reflexivity|]. split; [reflexivity|].
  refine (proj1 (proj2 (proj2 (proj2
    (newLlama_returns_running Demo.Sprintf_f Demo.host 226 "/models/llama.bin"
       [] Demo.model_runner Demo.zero_options _ _ _))))).
  vm_compute. reflexivity.
Defined.

(** ** [waitForServer] and [Ping] *)

Section WaitFacts.

Variable h : Host.
Variable llm : llama.
Variable try : nat.

Lemma Ping_ok_iff (i : nat) :
  Ping h llm try i = None <->
  exists status,
    http_Head h try i ("http://127.0.0.1:" ++ Itoa (Port llm))
      = HeadResponds 200 status.
Proof.
  unfold Ping, StatusOK.
  destruct (http_Head h try i _) as [e|code status].
  - split; [discriminate|intros [s Hs]; discriminate].
  - destruct (Z.eqb_spec code 200) as [->|Hne]; cbn [negb].
    + split; [intros _; exists status; reflexivity|reflexivity].
    + split; [discriminate|intros [s Hs]; congruence].
Qed.

Lemma waitTicks_nil_iff (expiresAt : Z) :
  forall fuel k,
    waitTicks h llm try expiresAt fuel k = Some None <->
    exists i, (k <= i < k + fuel)%nat /\
              Ping h llm try i = None /\
              forall j, (k <= j <= i)%nat -> time_Now_tick h try j <= expiresAt.
Proof.
  induction fuel as [|fuel IH]; intros k; cbn [waitTicks].
  - split; [discriminate|intros (i & Hi & _); lia].
  - destruct (time_Now_tick h try k >? expiresAt) eqn:E.
    + apply Z.gtb_lt in E. split; [discriminate|].
      intros (i & Hi & _ & Hall). specialize (Hall k). lia.
    + assert (Hk : time_Now_tick h try k <= expiresAt)
        by (destruct (Z.gtb_spec (time_Now_tick h try k) expiresAt);
            [discriminate|lia]).
      destruct (Ping h llm try k) eqn:P.
      * rewrite IH. split.
        -- intros (i & Hi & Hp & Hall). exists i. split; [lia|].
           split; [exact Hp|]. intros j Hj.
           destruct (Nat.eq_dec j k) as [->|Hne]; [exact Hk|apply Hall; lia].
        -- intros (i & Hi & Hp & Hall).
           assert (i <> k) by (intros ->; congruence).
           exists i. split; [lia|]. split; [exact Hp|].
           intros j Hj. apply Hall. lia.
      * split; [|reflexivity]. intros _. exists k. split; [lia|].
        split; [exact P|]. intros j Hj. replace j with k by lia. exact Hk.
Qed.

Lemma waitTicks_timeout_iff (expiresAt : Z) (e : error) :
  forall fuel k,
    waitTicks h llm try expiresAt fuel k = Some (Some e) <->
    e = errorString "llama.cpp server did not start within alloted time, retrying" /\
    exists i, (k <= i < k + fuel)%nat /\
              expiresAt < time_Now_tick h try i /\
              forall j, (k <= j < i)%nat ->
                        time_Now_tick h try j <= expiresAt /\
                        Ping h llm try j <> None.
Proof.
  induction fuel as [|fuel IH]; intros k; cbn [waitTicks].
  - split; [discriminate|intros (_ & i & Hi & _); lia].
  - destruct (time_Now_tick h try k >? expiresAt) eqn:E.
    + apply Z.gtb_lt in E. split.
      * intros H. inversion H; subst. split; [reflexivity|].
        exists k. split; [lia|]. split; [exact E|]. intros j Hj. lia.
      * intros (-> & _). reflexivity.
    + assert (Hk : time_Now_tick h try k <= expiresAt)
        by (destruct (Z.gtb_spec (time_Now_tick h try k) expiresAt);
            [discriminate|lia]).
      destruct (Ping h llm try k) eqn:P.
      * rewrite IH. split.
        -- intros (-> & i & Hi & Hlate & Hall). split; [reflexivity|].
           exists i. split; [lia|]. split; [exact Hlate|]. intros j Hj.
           destruct (Nat.eq_dec j k) as [->|Hne];
             [split; [exact Hk|congruence]|apply Hall; lia].
        -- intros (-> & i & Hi & Hlate & Hall). split; [reflexivity|].
           assert (i <> k) by (intros ->; lia).
           exists i. split; [lia|]. split; [exact Hlate|].
           intros j Hj. apply Hall. lia.
      * split; [discriminate|].
        intros (_ & i & Hi & Hlate & Hall).
        destruct (Nat.eq_dec i k) as [->|Hne]; [lia|].
        destruct (Hall k) as [_ Hp]; [lia|congruence].
Qed.

End WaitFacts.

(** X6: [waitForServer] returns nil within [fuel] ticks exactly when at
    one of them [http.Head] on the server's address answers 200 and no
    tick up to that one is read later than 45 seconds after the start:
    the deadline is tested before the server is asked, at every tick. *)
Theorem waitForServer_nil_iff :
  forall (h : Host) (llm : llama) (try fuel : nat),
    waitForServer h llm try fuel = Some None <->
    exists i status,
      (i < fuel)%nat /\
      http_Head h try i ("http://127.0.0.1:" ++ Itoa (Port llm))
        = HeadResponds 200 status /\
      forall j, (j <= i)%nat ->
                time_Now_tick h try j <= time_Now_begin h try + 45 * Second.
Proof.
  intros h llm try fuel. unfold waitForServer. rewrite waitTicks_nil_iff.
  split.
  - intros (i & Hi & Hp & Hall). apply Ping_ok_iff in Hp. destruct Hp as [s Hs].
    exists i, s. split; [lia|]. split; [exact Hs|]. intros j Hj. apply Hall. lia.
  - intros (i & s & Hi & Hs & Hall). exists i. split; [lia|].
    split; [apply Ping_ok_iff; exists s; exact Hs|]. intros j Hj. apply Hall. lia.
Qed.

(** X7: [waitForServer] gives up, with its error of time, exactly at the
    first tick read later than 45 seconds after the start, provided that
    no [Ping] succeeded at a tick before it; a server that would answer
    at that tick or later is not asked. *)
Theorem waitForServer_timeout_iff :
  forall (h : Host) (llm : llama) (try fuel : nat) (e : error),
    waitForServer h llm try fuel = Some (Some e) <->
    e = errorString "llama.cpp server did not start within alloted time, retrying" /\
    exists i,
      (i < fuel)%nat /\
      time_Now_begin h try + 45 * Second < time_Now_tick h try i /\
      forall j, (j < i)%nat ->
                time_Now_tick h try j <= time_Now_begin h try + 45 * Second /\
                Ping h llm try j <> None.
Proof.
  intros h llm try fuel e. unfold waitForServer. rewrite waitTicks_timeout_iff.
  split; intros (-> & i & Hi & Hlate & Hall); (split; [reflexivity|]);
    exists i; (split; [lia|]); (split; [exact Hlate|]);
    intros j Hj; apply Hall; lia.
Qed.

(** ** The client, on its other paths *)

Lemma requests_app (t1 t2 : list Event) :
  requests (t1 ++ t2) = (requests t1 ++ requests t2)%list.
Proof.
  induction t1 as [|ev t1 IH]; simpl; [reflexivity|].
  destruct ev; simpl; rewrite IH; reflexivity.
Qed.

Lemma requests_bind {A B} (m : M A) (f : A -> M B) :
  requests (snd (bind m f)) =
    (requests (snd m) ++
     match fst m with
     | Ok a => requests (snd (f a))
     | Err _ => []
     end)%list.
Proof.
  destruct m as [[a|e] t]; cbn [fst snd].
  - rewrite (bind_Ok _ _ a t eq_refl). cbn [snd]. apply requests_app.
  - cbn. rewrite app_nil_r. reflexivity.
Qed.

Lemma requests_lift {A} (r : result A) (wrap : error -> error) :
  requests (snd (lift r wrap)) = [].
Proof.
  destruct r; reflexivity.
Qed.

Section RequestFacts.

Context {json : Json}.
Variable srv : Server.
Variable parseDurationMs : float64 -> Z.
Variable llm : llama.
Variable ctx : GoContext.

Lemma to_route_nil route : to_route llm ctx route [].
Proof. left. reflexivity. Qed.

Lemma requests_post route data w1 w2 :
  to_route llm ctx route
    (requests (snd (post srv ctx (endpoint_of llm route) data w1 w2))) /\
  (requests (snd (post srv ctx (endpoint_of llm route) data w1 w2)) = [] ->
   exists e, fst (post srv ctx (endpoint_of llm route) data w1 w2) = Err e).
Proof.
  unfold post. destruct (srv _); cbn -[endpoint_of post_request].
  - split; [apply to_route_nil|eauto].
  - split; [right; eauto|discriminate].
  - split; [right; eauto|discriminate].
Qed.

(** A call that marshals, posts once and then only reads the answer
    sends at most that one request. *)
Lemma requests_one_post {A D} (m : result D) w0 route (render : D -> string)
    w1 w2 (k : Z * Body -> M A) :
  (forall resp, requests (snd (k resp)) = []) ->
  to_route llm ctx route
    (requests (snd (data <- lift m w0 ;;
                    resp <- post srv ctx (endpoint_of llm route) (render data) w1 w2 ;;
                    k resp))).
Proof.
  intros Hk. rewrite requests_bind, requests_lift. cbn [app].
  destruct m as [d|e]; cbn [lift ret fail fst]; [|apply to_route_nil].
  rewrite requests_bind.
  destruct (requests_post route (render d) w1 w2) as [Hroute _].
  destruct (fst (post srv ctx (endpoint_of llm route) (render d) w1 w2));
    [rewrite Hk|]; rewrite app_nil_r; exact Hroute.
Qed.

Lemma requests_Encode prompt :
  to_route llm ctx "/tokenize" (requests (snd (Encode srv llm ctx prompt))).
Proof.
  unfold Encode.
  apply (requests_one_post _ _ "/tokenize" (fun d => d)).
  intros resp. rewrite requests_bind, requests_lift. cbn [app].
  destruct (fst (lift _ _)); [|reflexivity].
  destruct (fst resp >=? 400); [reflexivity|].
  rewrite requests_bind, requests_lift.
  destruct (fst (lift _ _)); reflexivity.
Qed.

Lemma requests_Decode tokens :
  to_route llm ctx "/detokenize" (requests (snd (Decode srv llm ctx tokens))) /\
  (tokens = [] -> requests (snd (Decode srv llm ctx tokens)) = []).
Proof.
  split; [|intros ->; reflexivity].
  unfold Decode. destruct (length tokens =? 0)%nat; [apply to_route_nil|].
  apply (requests_one_post _ _ "/detokenize" (fun d => d)).
  intros resp. rewrite requests_bind, requests_lift. cbn [app].
  destruct (fst (lift _ _)); [|reflexivity].
  destruct (fst resp >=? 400); [reflexivity|].
  rewrite requests_bind, requests_lift.
  destruct (fst (lift _ _)); reflexivity.
Qed.

Lemma requests_scanLoop lines :
  forall i acc,
    to_route llm ctx "/tokenize"
      (requests (snd (scanLoop srv parseDurationMs llm ctx i lines acc))).
Proof.
  induction lines as [|line rest IH]; intros i acc; [apply to_route_nil|].
  destruct (ctx_Done ctx i) eqn:Hd.
  { rewrite (scanLoop_cancelled _ _ _ _ _ _ _ _ Hd). apply to_route_nil. }
  destruct (is_data line) eqn:Hl.
  2:{ rewrite (scanLoop_skip _ _ _ _ _ _ _ _ Hd Hl). apply IH. }
  destruct (Unmarshal_Prediction (SliceFrom line 6)) as [p|e] eqn:Hp.
  2:{ rewrite (scanLoop_garbage _ _ _ _ _ _ _ _ _ Hd Hl Hp). apply to_route_nil. }
  rewrite (scanLoop_event _ _ _ _ _ _ _ _ _ Hd Hl Hp), bind_emit.
  cbn [snd requests].
  destruct (p_Stop p); [|apply IH].
  rewrite requests_bind.
  assert (E : requests (snd (mapErr (Errorf_v "encoding context: ")
                               (Encode srv llm ctx (acc ++ p_Content p))))
              = requests (snd (Encode srv llm ctx (acc ++ p_Content p)))).
  { destruct (Encode srv llm ctx (acc ++ p_Content p)) as [[a|e] t]; reflexivity. }
  rewrite E.
  destruct (fst (mapErr _ _)); rewrite ?bind_emit; cbn [snd requests ret];
    rewrite app_nil_r; apply requests_Encode.
Qed.

End RequestFacts.

(** X8: [Predict] sends at most three requests, all of them [POST]s of
    JSON with the caller's context to the server of [llm]: at most one
    to [/detokenize], and none when there is no previous context; then
    at most one to [/completion]; then at most one to [/tokenize], and
    none when the completion request was not sent. *)
Theorem Predict_requests_in_order :
  forall (json : Json) (srv : Server) (parseDurationMs : float64 -> Z)
         (llm : llama) (ctx : GoContext) (prevContext : list Z) (prompt : string),
  exists d c k,
    requests (snd (Predict srv parseDurationMs llm ctx prevContext prompt))
      = (d ++ c ++ k)%list /\
    to_route llm ctx "/detokenize" d /\
    to_route llm ctx "/completion" c /\
    to_route llm ctx "/tokenize" k /\
    (prevContext = [] -> d = []) /\
    (c = [] -> k = []).
Proof.
  intros json srv pd llm ctx prev prompt.
  destruct (requests_Decode srv llm ctx prev) as [Hd Hd0].
  unfold Predict. rewrite requests_bind.
  exists (requests (snd (Decode srv llm ctx prev))).
  destruct (fst (Decode srv llm ctx prev)) as [prevConvo|e].
  2:{ exists [], []. repeat split; auto using to_route_nil. }
  rewrite requests_bind, requests_lift. cbn [app].
  destruct (Marshal_PredictRequest _) as [data|e]; cbn [lift ret fail fst].
  2:{ exists [], []. repeat split; auto using to_route_nil. }
  rewrite requests_bind.
  destruct (requests_post srv llm ctx "/completion" data
              (Errorf_v "error creating POST request: ")
              (Errorf_v "POST predict: ")) as [Hc Hc0].
  exists (requests (snd (post srv ctx (endpoint_of llm "/completion") data
                           (Errorf_v "error creating POST request: ")
                           (Errorf_v "POST predict: ")))).
  destruct (fst (post srv ctx (endpoint_of llm "/completion") data _ _))
    as [resp|e] eqn:Hpost.
  2:{ exists []. repeat split; auto using to_route_nil. }
  destruct (fst resp >=? 400).
  { exists []. rewrite requests_bind, requests_lift.
    destruct (fst (lift _ _)); repeat split; auto using to_route_nil. }
  rewrite requests_bind.
  exists (requests (snd (scanLoop srv pd llm ctx 0 (scan_Lines (snd resp))
                           (prevConvo ++ prompt)))).
  split.
  { f_equal. f_equal.
    destruct (fst (scanLoop _ _ _ _ _ _ _)) as [[|]|e];
      [| destruct (scan_Err (snd resp)) |]; cbn; apply app_nil_r. }
  split; [exact Hd|]. split; [exact Hc|].
  split; [apply requests_scanLoop|]. split; [exact Hd0|].
  intros E. destruct (Hc0 E) as [e He]. congruence.
Qed.

(** ** The stream, in general *)

Section StreamGeneral.

Context {json : Json}.
Variable srv : Server.
Variable parseDurationMs : float64 -> Z.
Variable llm : llama.
Variable ctx : GoContext.

Local Abbreviation loop := (scanLoop srv parseDurationMs llm ctx).

Lemma callbacks_partials cs : callbacks (partials cs) = map partial_response cs.
Proof.
  induction cs as [|c cs IH]; [reflexivity|].
  cbn [partials map callbacks]. f_equal. exact IH.
Qed.

(** Over fragments the loop calls back once for each and goes on with
    their contents written. *)
Lemma scanLoop_over_fragments pre :
  forall rest i acc,
    Forall fragment_line pre ->
    (forall j, (i <= j < i + length pre)%nat -> ctx_Done ctx j = false) ->
    loop i (pre ++ rest) acc =
      (fst (loop (i + length pre) rest (written acc (contents pre))),
       (partials (contents pre)
          ++ snd (loop (i + length pre) rest (written acc (contents pre))))%list).
Proof.
  induction pre as [|line pre IH]; intros rest i acc Hfr Hctx.
  - cbn [app length contents written fold_left partials map].
    rewrite Nat.add_0_r. destruct (loop i rest acc); reflexivity.
  - assert (Hd : ctx_Done ctx i = false) by (apply Hctx; simpl; lia).
    assert (Hrest : forall j, (S i <= j < S i + length pre)%nat ->
                              ctx_Done ctx j = false)
      by (intros j Hj; apply Hctx; simpl; lia).
    inversion Hfr as [|? ? Hline Hfr']; subst.
    cbn [app length contents].
    replace (i + S (length pre))%nat with (S i + length pre)%nat by lia.
    destruct (is_data line) eqn:Hl.
    + destruct (Hline Hl) as (p & Hp & Hs).
      rewrite (scanLoop_event _ _ _ _ _ _ _ _ _ Hd Hl Hp), Hs, bind_emit, Hp.
      rewrite (IH rest (S i) (acc ++ p_Content p) Hfr' Hrest).
      reflexivity.
    + rewrite (scanLoop_skip _ _ _ _ _ _ _ _ Hd Hl).
      apply (IH rest (S i) acc Hfr' Hrest).
Qed.

End StreamGeneral.

Section StreamOutcomes.

Context {json : Json}.
Variable srv : Server.
Variable parseDurationMs : float64 -> Z.
Variable llm : llama.
Variable ctx : GoContext.
Variables (prevContext : list Z) (prompt prevConvo data : string).
Variables (t0 : list Event) (code : Z) (body : Body).

Hypothesis decoded : Decode srv llm ctx prevContext = (Ok prevConvo, t0).
Hypothesis marshaled :
  Marshal_PredictRequest (predict_request llm (prevConvo ++ prompt)) = Ok data.
Hypothesis streams :
  srv (post_request ctx (endpoint_of llm "/completion") data) = Responds code body.
Hypothesis accepted : code < 400.

Local Abbreviation run := (Predict srv parseDurationMs llm ctx prevContext prompt).

Lemma callbacks_before_stream : callbacks t0 = [].
Proof.
  pose proof (quiet_Decode srv llm ctx prevContext) as Q. unfold quiet in Q.
  rewrite decoded in Q. exact Q.
Qed.

(** [Predict] on a stream that starts with fragments: what the loop
    does on the lines after them decides. *)
Lemma Predict_over_fragments pre rest :
  scan_Lines body = (pre ++ rest)%list ->
  Forall fragment_line pre ->
  (forall j, (j < length pre)%nat -> ctx_Done ctx j = false) ->
  let tail := scanLoop srv parseDurationMs llm ctx (length pre) rest
                (written (prevConvo ++ prompt) (contents pre)) in
  fst run = stream_result (fst tail) (scan_Err body) /\
  callbacks (snd run) =
    (map partial_response (contents pre) ++ callbacks (snd tail))%list.
Proof.
  intros Hlines Hfr Hctx tail.
  rewrite (Predict_streaming _ _ _ _ _ _ _ _ _ _ _ decoded marshaled streams accepted).
  rewrite Hlines, (scanLoop_over_fragments srv parseDurationMs llm ctx pre rest 0)
    by (try exact Hfr; intros j Hj; apply Hctx; lia).
  cbn [fst snd Nat.add]. split; [reflexivity|].
  rewrite callbacks_app, callbacks_before_stream. cbn [app callbacks].
  rewrite callbacks_app, callbacks_partials. reflexivity.
Qed.

End StreamOutcomes.

(** ** What a stream comes to *)

(** X9: the stream starts with fragments, any number of them, and then
    has a stop record; the context is not cancelled up to it and
    [Encode] succeeds on the previous text, the prompt and all the
    contents received, the stop record's included.  Then [Predict]
    returns nil; it has called back once for each content with a
    partial result, and then once with done=true and the tokens of
    [Encode].  The lines after the stop record are not looked at. *)
Theorem Predict_fragments_then_stop :
  forall (json : Json) (srv : Server) (parseDurationMs : float64 -> Z)
         (llm : llama) (ctx : GoContext) (prevContext : list Z)
         (prompt prevConvo data : string) (t0 : list Event) (code : Z)
         (body : Body) (pre : list string) (stop_line : string)
         (rest : list string) (p : Prediction) (embd : list Z) (t3 : list Event),
    Decode srv llm ctx prevContext = (Ok prevConvo, t0) ->
    Marshal_PredictRequest (predict_request llm (prevConvo ++ prompt)) = Ok data ->
    srv (post_request ctx (endpoint_of llm "/completion") data)
      = Responds code body ->
    code < 400 ->
    scan_Lines body = (pre ++ stop_line :: rest)%list ->
    Forall fragment_line pre ->
    (forall j, (j <= length pre)%nat -> ctx_Done ctx j = false) ->
    is_data stop_line = true ->
    Unmarshal_Prediction (SliceFrom stop_line 6) = Ok p ->
    p_Stop p = true ->
    Encode srv llm ctx
      (written (prevConvo ++ prompt) (contents pre ++ [p_Content p]))
      = (Ok embd, t3) ->
    let run := Predict srv parseDurationMs llm ctx prevContext prompt in
    fst run = Ok tt /\
    callbacks (snd run) =
      (map partial_response (contents pre ++ [p_Content p])
         ++ [final_response parseDurationMs embd p])%list.
Proof.
  intros json srv pd llm ctx prev prompt prevConvo data t0 code body pre
         stop_line rest p embd t3 Hdec Hm Hs Hc Hlines Hfr Hctx Hl Hp Hstop
         Henc run.
  destruct (Predict_over_fragments srv pd llm ctx prev prompt prevConvo data
              t0 code body Hdec Hm Hs Hc pre (stop_line :: rest) Hlines Hfr)
    as [R C].
  { intros j Hj. apply Hctx. lia. }
  subst run. rewrite R, C. clear R C.
  rewrite (scanLoop_event _ _ _ _ _ _ _ _ _ (Hctx _ (Nat.le_refl _)) Hl Hp).
  rewrite Hstop, bind_emit.
  unfold written in Henc |- *. rewrite fold_left_app in Henc. cbn [fold_left] in Henc.
  rewrite Henc. cbn [mapErr]. erewrite bind_Ok by reflexivity.
  rewrite bind_emit. cbn [fst snd ret stream_result callbacks].
  split; [reflexivity|].
  pose proof (quiet_Encode srv llm ctx
    (fold_left String.append (contents pre) (prevConvo ++ prompt) ++ p_Content p))
    as Q.
  unfold quiet in Q. rewrite Henc in Q. cbn [snd] in Q.
  rewrite callbacks_app, Q, map_app, <- app_assoc. reflexivity.
Qed.

Lemma Predict_fragments_then_stop_witness :
  let run := @Predict Demo.json_table (Demo.server 200 Demo.hi_there_stop)
               Demo.parseDurationMs Demo.runner Demo.background [] "Hello" in
  fst run = Ok tt /\
  callbacks (snd run) =
    (map partial_response ["Hi"; " there"; ""]
       ++ [final_response Demo.parseDurationMs [1; 2; 3; 4; 5] Demo.stop_record])%list.
Proof.
  apply (@Predict_fragments_then_stop Demo.json_table
           (Demo.server 200 Demo.hi_there_stop) Demo.parseDurationMs Demo.runner
           Demo.background [] "Hello" "" Samples.completion_request [] 200
           (Demo.lines_body Demo.hi_there_stop)
           Demo.hi_there ("data: " ++ Demo.stop_json) [""] Demo.stop_record
           [1; 2; 3; 4; 5]
           [Sent (post_request Demo.background
                    (endpoint_of Demo.runner "/tokenize")
                    (Demo.content_json "HelloHi there"))]).
  - reflexivity.
  - reflexivity.
  - reflexivity.
  - lia.
  - reflexivity.
  - exact hi_there_fragments.
  - intros j _. reflexivity.
  - reflexivity.
  - reflexivity.
  - reflexivity.
  - reflexivity.
Defined.

(** X10: as in X9, but [Encode] fails on the accumulated text.  Then
    [Predict] returns an error with the message of that failure after
    ["encoding context: "], which does not wrap it; the callbacks were
    the partial results, the stop record's included, and none has
    done=true. *)
Theorem Predict_encode_failure_at_stop :
  forall (json : Json) (srv : Server) (parseDurationMs : float64 -> Z)
         (llm : llama) (ctx : GoContext) (prevContext : list Z)
         (prompt prevConvo data : string) (t0 : list Event) (code : Z)
         (body : Body) (pre : list string) (stop_line : string)
         (rest : list string) (p : Prediction) (e : error) (t3 : list Event),
    Decode srv llm ctx prevContext = (Ok prevConvo, t0) ->
    Marshal_PredictRequest (predict_request llm (prevConvo ++ prompt)) = Ok data ->
    srv (post_request ctx (endpoint_of llm "/completion") data)
      = Responds code body ->
    code < 400 ->
    scan_Lines body = (pre ++ stop_line :: rest)%list ->
    Forall fragment_line pre ->
    (forall j, (j <= length pre)%nat -> ctx_Done ctx j = false) ->
    is_data stop_line = true ->
    Unmarshal_Prediction (SliceFrom stop_line 6) = Ok p ->
    p_Stop p = true ->
    Encode srv llm ctx
      (written (prevConvo ++ prompt) (contents pre ++ [p_Content p]))
      = (Err e, t3) ->
    let run := Predict srv parseDurationMs llm ctx prevContext prompt in
    fst run = Err (errorString ("encoding context: " ++ Error e)) /\
    callbacks (snd run) = map partial_response (contents pre ++ [p_Content p]).
Proof.
  intros json srv pd llm ctx prev prompt prevConvo data t0 code body pre
         stop_line rest p e t3 Hdec Hm Hs Hc Hlines Hfr Hctx Hl Hp Hstop
         Henc run.
  destruct (Predict_over_fragments srv pd llm ctx prev prompt prevConvo data
              t0 code body Hdec Hm Hs Hc pre (stop_line :: rest) Hlines Hfr)
    as [R C].
  { intros j Hj. apply Hctx. lia. }
  subst run. rewrite R, C. clear R C.
  rewrite (scanLoop_event _ _ _ _ _ _ _ _ _ (Hctx _ (Nat.le_refl _)) Hl Hp).
  rewrite Hstop, bind_emit.
  unfold written in Henc |- *. rewrite fold_left_app in Henc. cbn [fold_left] in Henc.
  rewrite Henc. cbn [mapErr bind fst snd stream_result callbacks].
  split; [reflexivity|].
  pose proof (quiet_Encode srv llm ctx
    (fold_left String.append (contents pre) (prevConvo ++ prompt) ++ p_Content p))
    as Q.
  unfold quiet in Q. rewrite Henc in Q. cbn [snd] in Q.
  rewrite Q, map_app. reflexivity.
Qed.

(** The tokenizer of the server answers 503 at the stop record. *)
Lemma Predict_encode_failure_at_stop_witness :
  let srv := Samples.server 503 (Demo.lines_body Demo.hi_there_stop) in
  let run := @Predict Demo.json_table srv Demo.parseDurationMs Demo.runner
               Demo.background [] "Hello" in
  fst run = Err (errorString ("encoding context: " ++ Demo.tokens_json)) /\
  callbacks (snd run) = map partial_response ["Hi"; " there"; ""].
Proof.
  apply (@Predict_encode_failure_at_stop Demo.json_table
           (Samples.server 503 (Demo.lines_body Demo.hi_there_stop))
           Demo.parseDurationMs Demo.runner
           Demo.background [] "Hello" "" Samples.completion_request [] 200
           (Demo.lines_body Demo.hi_there_stop)
           Demo.hi_there ("data: " ++ Demo.stop_json) [""] Demo.stop_record
           (errorString Demo.tokens_json)
           [Sent (post_request Demo.background
                    (endpoint_of Demo.runner "/tokenize")
                    (Demo.content_json "HelloHi there"))]).
  - reflexivity.
  - reflexivity.
  - reflexivity.
  - lia.
  - reflexivity.
  - exact hi_there_fragments.
  - intros j _. reflexivity.
  - reflexivity.
  - reflexivity.
  - reflexivity.
  - reflexivity.
Defined.

(** X11: the stream starts with fragments and then has an event that
    does not parse, and the context is not cancelled up to it.  Then
    [Predict] returns the error of [json.Unmarshal] after its own
    message, as text; the callbacks are the partial results of the
    fragments before it, and the rest of the stream is not read. *)
Theorem Predict_malformed_event :
  forall (json : Json) (srv : Server) (parseDurationMs : float64 -> Z)
         (llm : llama) (ctx : GoContext) (prevContext : list Z)
         (prompt prevConvo data : string) (t0 : list Event) (code : Z)
         (body : Body) (pre : list string) (bad_line : string)
         (rest : list string) (e : error),
    Decode srv llm ctx prevContext = (Ok prevConvo, t0) ->
    Marshal_PredictRequest (predict_request llm (prevConvo ++ prompt)) = Ok data ->
    srv (post_request ctx (endpoint_of llm "/completion") data)
      = Responds code body ->
    code < 400 ->
    scan_Lines body = (pre ++ bad_line :: rest)%list ->
    Forall fragment_line pre ->
    (forall j, (j <= length pre)%nat -> ctx_Done ctx j = false) ->
    is_data bad_line = true ->
    Unmarshal_Prediction (SliceFrom bad_line 6) = Err e ->
    let run := Predict srv parseDurationMs llm ctx prevContext prompt in
    fst run = Err (errorString
                     ("error unmarshaling llm prediction response: " ++ Error e)) /\
    callbacks (snd run) = map partial_response (contents pre).
Proof.
  intros json srv pd llm ctx prev prompt prevConvo data t0 code body pre
         bad_line rest e Hdec Hm Hs Hc Hlines Hfr Hctx Hl Hp run.
  destruct (Predict_over_fragments srv pd llm ctx prev prompt prevConvo data
              t0 code body Hdec Hm Hs Hc pre (bad_line :: rest) Hlines Hfr)
    as [R C].
  { intros j Hj. apply Hctx. lia. }
  subst run. rewrite R, C. clear R C.
  rewrite (scanLoop_garbage _ _ _ _ _ _ _ _ _ (Hctx _ (Nat.le_refl _)) Hl Hp).
  cbn [fail fst snd stream_result callbacks]. rewrite app_nil_r.
  split; reflexivity.
Qed.

(** After ["Hi"] the server sends the text [no] for an event. *)
Lemma Predict_malformed_event_witness :
  let srv := Demo.server 200 Samples.hi_no_there in
  let run := @Predict Demo.json_table srv Demo.parseDurationMs Demo.runner
               Demo.background [] "Hello" in
  fst run = Err (errorString
                   ("error unmarshaling llm prediction response: "
                    ++ Error Demo.syntax_error)) /\
  callbacks (snd run) = map partial_response ["Hi"].
Proof.
  apply (@Predict_malformed_event Demo.json_table
           (Demo.server 200 Samples.hi_no_there) Demo.parseDurationMs Demo.runner
           Demo.background [] "Hello" "" Samples.completion_request [] 200
           (Demo.lines_body Samples.hi_no_there)
           ["data: " ++ Demo.fragment_json "Hi"; ""] "data: no"
           [""; "data: " ++ Demo.fragment_json " there"; ""] Demo.syntax_error).
  - reflexivity.
  - reflexivity.
  - reflexivity.
  - lia.
  - reflexivity.
  - repeat (constructor;
            [intros H; first [ discriminate H
                             | eexists; split; vm_compute; reflexivity ]|]).
    constructor.
  - intros j _. reflexivity.
  - reflexivity.
  - reflexivity.
Defined.

(** X12: the stream consists of fragments and is cut by a read error
    that the scanner reports, and the context is not cancelled.  Then
    [Predict] returns that error after ["error reading llm response: "],
    as text, after one partial result for each fragment. *)
Theorem Predict_read_error :
  forall (json : Json) (srv : Server) (parseDurationMs : float64 -> Z)
         (llm : llama) (ctx : GoContext) (prevContext : list Z)
         (prompt prevConvo data : string) (t0 : list Event) (code : Z)
         (body : Body) (e : error),
    Decode srv llm ctx prevContext = (Ok prevConvo, t0) ->
    Marshal_PredictRequest (predict_request llm (prevConvo ++ prompt)) = Ok data ->
    srv (post_request ctx (endpoint_of llm "/completion") data)
      = Responds code body ->
    code < 400 ->
    Forall fragment_line (scan_Lines body) ->
    (forall j, (j < length (scan_Lines body))%nat -> ctx_Done ctx j = false) ->
    scan_Err body = Some e ->
    let run := Predict srv parseDurationMs llm ctx prevContext prompt in
    fst run = Err (errorString ("error reading llm response: " ++ Error e)) /\
    callbacks (snd run) = map partial_response (contents (scan_Lines body)).
Proof.
  intros json srv pd llm ctx prev prompt prevConvo data t0 code body e
         Hdec Hm Hs Hc Hfr Hctx Herr run.
  destruct (Predict_over_fragments srv pd llm ctx prev prompt prevConvo data
              t0 code body Hdec Hm Hs Hc (scan_Lines body) [])
    as [R C]; [symmetry; apply app_nil_r|exact Hfr|exact Hctx|].
  subst run. rewrite R, C, Herr. cbn [scanLoop ret fst snd stream_result callbacks].
  rewrite app_nil_r. split; reflexivity.
Qed.

(** The connection breaks after two fragments. *)
Lemma Predict_read_error_witness :
  let srv := Samples.server 200 (Samples.cut_body Demo.hi_there) in
  let run := @Predict Demo.json_table srv Demo.parseDurationMs Demo.runner
               Demo.background [] "Hello" in
  fst run = Err (errorString "error reading llm response: unexpected EOF") /\
  callbacks (snd run) = map partial_response ["Hi"; " there"].
Proof.
  apply (@Predict_read_error Demo.json_table
           (Samples.server 200 (Samples.cut_body Demo.hi_there))
           Demo.parseDurationMs Demo.runner
           Demo.background [] "Hello" "" Samples.completion_request [] 200
           (Samples.cut_body Demo.hi_there) Samples.unexpected_EOF).
  - reflexivity.
  - reflexivity.
  - reflexivity.
  - lia.
  - exact hi_there_fragments.
  - intros j _. reflexivity.
  - reflexivity.
Defined.

(** X13: while the context is not cancelled, the loop of [Predict] does
    the same on two streams that have the same events: empty lines and
    lines without the marker ["data: "] change nothing, wherever they
    are. *)
Theorem scanLoop_sees_events_only :
  forall (json : Json) (srv : Server) (parseDurationMs : float64 -> Z)
         (llm : llama) (ctx : GoContext) (lines1 lines2 : list string)
         (i1 i2 : nat) (acc : string),
    (forall j, ctx_Done ctx j = false) ->
    data_events lines1 = data_events lines2 ->
    scanLoop srv parseDurationMs llm ctx i1 lines1 acc
      = scanLoop srv parseDurationMs llm ctx i2 lines2 acc.
Proof.
  intros json srv pd llm ctx lines1 lines2 i1 i2 acc Hctx Hev.
  rewrite !scanLoop_as_events by (intros j _; apply Hctx).
  rewrite Hev. reflexivity.
Qed.

Lemma scanLoop_sees_events_only_witness :
  let lines := [ ": keep-alive";
                 "data: " ++ Demo.fragment_json "Hi";
                 "event: message";
                 "data: " ++ Demo.fragment_json " there" ] in
  @scanLoop Demo.json_table (Demo.server 200 []) Demo.parseDurationMs
     Demo.runner Demo.background 0 Demo.hi_there "Hello"
  = @scanLoop Demo.json_table (Demo.server 200 []) Demo.parseDurationMs
      Demo.runner Demo.background 0 lines "Hello".
Proof.
  apply scanLoop_sees_events_only; [intros j; reflexivity|reflexivity].
Defined.

(** ** Errors and their identity *)

Lemma error_eqb_refl (e : error) : error_eqb e e = true.
Proof.
  induction e as [| |m|m inner IH]; cbn; rewrite ?String.eqb_refl, ?IH; reflexivity.
Qed.

Lemma errors_Is_wrap (msg : string) (e target : error) :
  errors_Is e target = true -> errors_Is (wrapError msg e) target = true.
Proof.
  intros H. cbn [errors_Is]. rewrite H. apply orb_true_r.
Qed.

Section TransportFacts.

Context {json : Json}.
Variable srv : Server.
Variable parseDurationMs : float64 -> Z.
Variable llm : llama.
Variable ctx : GoContext.
Variable e : error.

Lemma Encode_transport prompt data :
  Marshal_TokenizeRequest {| tq_Content := prompt |} = Ok data ->
  srv (post_request ctx (endpoint_of llm "/tokenize") data) = DoFails e ->
  fst (Encode srv llm ctx prompt) = Err (Errorf_w "do encode request: " e).
Proof.
  intros Hm Hs. unfold Encode, post. rewrite Hm, lift_Ok, bind_ret, Hs.
  rewrite bind_emit. reflexivity.
Qed.

Lemma Decode_transport tokens data :
  tokens <> [] ->
  Marshal_DetokenizeRequest {| dq_Tokens := tokens |} = Ok data ->
  srv (post_request ctx (endpoint_of llm "/detokenize") data) = DoFails e ->
  fst (Decode srv llm ctx tokens) = Err (Errorf_w "do decode request: " e).
Proof.
  intros Hne Hm Hs. unfold Decode, post.
  destruct tokens as [|t ts]; [congruence|]. cbn [length Nat.eqb].
  rewrite Hm, lift_Ok, bind_ret, Hs. rewrite bind_emit. reflexivity.
Qed.

Lemma Embedding_transport input data :
  Marshal_TokenizeRequest {| tq_Content := input |} = Ok data ->
  srv (post_request ctx (endpoint_of llm "/embedding") data) = DoFails e ->
  fst (Embedding srv llm ctx input) = Err (Errorf_w "POST embedding: " e).
Proof.
  intros Hm Hs. unfold Embedding, post. rewrite Hm, lift_Ok, bind_ret, Hs.
  rewrite bind_emit. reflexivity.
Qed.

Lemma Predict_transport prevContext prompt prevConvo t0 data :
  Decode srv llm ctx prevContext = (Ok prevConvo, t0) ->
  Marshal_PredictRequest (predict_request llm (prevConvo ++ prompt)) = Ok data ->
  srv (post_request ctx (endpoint_of llm "/completion") data) = DoFails e ->
  fst (Predict srv parseDurationMs llm ctx prevContext prompt)
    = Err (Errorf_v "POST predict: " e).
Proof.
  intros Hdec Hm Hs. unfold Predict, post.
  rewrite (bind_Ok _ _ _ _ Hdec). cbv beta zeta.
  rewrite Hm, lift_Ok, bind_ret, Hs. rewrite bind_emit. reflexivity.
Qed.

End TransportFacts.

(** X14: when [http.DefaultClient.Do] fails with an error that is
    ([errors.Is]) some target, say [context.Canceled], the error
    [Encode], [Decode] and [Embedding] return still is that target: they
    wrap it.  The error [Predict] returns for its completion request is
    a message, ["POST predict: "] and the text of the failure, and is
    neither [context.Canceled] nor [context.DeadlineExceeded] whatever
    the failure was. *)
Theorem transport_error_identity :
  forall (json : Json) (srv : Server) (parseDurationMs : float64 -> Z)
         (llm : llama) (ctx : GoContext) (e target : error),
    errors_Is e target = true ->
    (forall prompt data,
        Marshal_TokenizeRequest {| tq_Content := prompt |} = Ok data ->
        srv (post_request ctx (endpoint_of llm "/tokenize") data) = DoFails e ->
        exists e', fst (Encode srv llm ctx prompt) = Err e' /\
                   errors_Is e' target = true) /\
    (forall tokens data,
        tokens <> [] ->
        Marshal_DetokenizeRequest {| dq_Tokens := tokens |} = Ok data ->
        srv (post_request ctx (endpoint_of llm "/detokenize") data) = DoFails e ->
        exists e', fst (Decode srv llm ctx tokens) = Err e' /\
                   errors_Is e' target = true) /\
    (forall input data,
        Marshal_TokenizeRequest {| tq_Content := input |} = Ok data ->
        srv (post_request ctx (endpoint_of llm "/embedding") data) = DoFails e ->
        exists e', fst (Embedding srv llm ctx input) = Err e' /\
                   errors_Is e' target = true) /\
    (forall prevContext prompt prevConvo t0 data,
        Decode srv llm ctx prevContext = (Ok prevConvo, t0) ->
        Marshal_PredictRequest (predict_request llm (prevConvo ++ prompt))
          = Ok data ->
        srv (post_request ctx (endpoint_of llm "/completion") data) = DoFails e ->
        exists e', fst (Predict srv parseDurationMs llm ctx prevContext prompt)
                     = Err e' /\
                   Error e' = "POST predict: " ++ Error e /\
                   errors_Is e' Canceled = false /\
                   errors_Is e' DeadlineExceeded = false).
Proof.
  intros json srv pd llm ctx e target Htarget.
  split; [|split; [|split]].
  - intros prompt data Hm Hs. eexists. split.
    + apply (Encode_transport srv llm ctx e prompt data Hm Hs).
    + apply errors_Is_wrap. exact Htarget.
  - intros tokens data Hne Hm Hs. eexists. split.
    + apply (Decode_transport srv llm ctx e tokens data Hne Hm Hs).
    + apply errors_Is_wrap. exact Htarget.
  - intros input data Hm Hs. eexists. split.
    + apply (Embedding_transport srv llm ctx e input data Hm Hs).
    + apply errors_Is_wrap. exact Htarget.
  - intros prev prompt prevConvo t0 data Hdec Hm Hs. eexists. split.
    + apply (Predict_transport srv pd llm ctx e prev prompt prevConvo t0 data
               Hdec Hm Hs).
    + repeat split.
Qed.

(** Every request is given up for a cancelled context. *)
Lemma transport_error_identity_witness :
  (exists e', fst (@Encode Demo.json_table Samples.cancelled_transport
                     Demo.runner Demo.background "Hello") = Err e' /\
              errors_Is e' Canceled = true) /\
  (exists e', fst (@Predict Demo.json_table Samples.cancelled_transport
                     Demo.parseDurationMs Demo.runner Demo.background [] "Hello")
                = Err e' /\
              Error e' = "POST predict: " ++ Error Canceled /\
              errors_Is e' Canceled = false /\
              errors_Is e' DeadlineExceeded = false).
Proof.
  destruct (@transport_error_identity Demo.json_table Samples.cancelled_transport
              Demo.parseDurationMs Demo.runner Demo.background Canceled Canceled
              eq_refl) as (Henc & _ & _ & Hpre).
  split.
  - apply (Henc "Hello" (Demo.content_json "Hello")); reflexivity.
  - apply (Hpre [] "Hello" "" [] Samples.completion_request); reflexivity.
Defined.

(** ** Options after the start *)

Section OptionsFacts.

Context {json : Json}.
Variable srv : Server.
Variable parseDurationMs : float64 -> Z.
Variable ctx : GoContext.

(** The client reads of a [llama] its port, and [Predict] what
    [predict_request] makes of its options. *)
Lemma Encode_by_port llm1 llm2 prompt :
  Port llm1 = Port llm2 -> Encode srv llm1 ctx prompt = Encode srv llm2 ctx prompt.
Proof.
  intros H. unfold Encode, endpoint_of. rewrite H. reflexivity.
Qed.

Lemma Decode_by_port llm1 llm2 tokens :
  Port llm1 = Port llm2 -> Decode srv llm1 ctx tokens = Decode srv llm2 ctx tokens.
Proof.
  intros H. unfold Decode, endpoint_of. rewrite H. reflexivity.
Qed.

Lemma Embedding_by_port llm1 llm2 input :
  Port llm1 = Port llm2 ->
  Embedding srv llm1 ctx input = Embedding srv llm2 ctx input.
Proof.
  intros H. unfold Embedding, endpoint_of. rewrite H. reflexivity.
Qed.

Lemma scanLoop_by_port llm1 llm2 lines :
  Port llm1 = Port llm2 ->
  forall i acc,
    scanLoop srv parseDurationMs llm1 ctx i lines acc
      = scanLoop srv parseDurationMs llm2 ctx i lines acc.
Proof.
  intros H. induction lines as [|line rest IH]; intros i acc; [reflexivity|].
  cbn [scanLoop]. rewrite !IH.
  destruct (ctx_Done ctx i); [reflexivity|].
  destruct (String.eqb line ""); [reflexivity|].
  destruct (HasPrefix line "data: "); [|reflexivity].
  destruct (Unmarshal_Prediction (SliceFrom line 6)) as [p|e];
    [|reflexivity].
  rewrite !lift_Ok, !bind_ret, !bind_emit.
  destruct (p_Stop p); [|rewrite IH; reflexivity].
  rewrite (Encode_by_port llm1 llm2 _ H). reflexivity.
Qed.

Lemma Predict_by_port_and_request llm1 llm2 prevContext prompt :
  Port llm1 = Port llm2 ->
  (forall text, predict_request llm1 text = predict_request llm2 text) ->
  Predict srv parseDurationMs llm1 ctx prevContext prompt
    = Predict srv parseDurationMs llm2 ctx prevContext prompt.
Proof.
  intros Hport Hreq. unfold Predict.
  rewrite (Decode_by_port llm1 llm2 _ Hport).
  destruct (Decode srv llm2 ctx prevContext) as [[prevConvo|e] t0];
    [|reflexivity].
  rewrite !(bind_Ok _ _ prevConvo t0 eq_refl). cbv beta zeta.
  rewrite Hreq. unfold endpoint_of. rewrite Hport.
  destruct (Marshal_PredictRequest _) as [data|e]; [|reflexivity].
  rewrite !lift_Ok, !bind_ret.
  destruct (post srv ctx _ data _ _) as [[resp|e] t1]; [|reflexivity].
  rewrite !(bind_Ok _ _ resp t1 eq_refl).
  destruct (fst resp >=? 400); [reflexivity|].
  rewrite (scanLoop_by_port llm1 llm2 _ Hport). reflexivity.
Qed.

End OptionsFacts.

(** X15: [SetOptions] with options that agree with the current ones on
    the sampling fields, and differ on those [newLlama] put on the
    command line (context size, batch size, GPU layers, threads, memory
    flags, ...), changes nothing in what [Predict] does; and whatever
    the new options are, [Encode], [Decode] and [Embedding] do what they
    did, and the port and the command of the server stay. *)
Theorem SetOptions_reaches_sampling_only :
  forall (json : Json) (srv : Server) (parseDurationMs : float64 -> Z)
         (ctx : GoContext) (llm : llama) (opts : Options),
    Port (SetOptions llm opts) = Port llm /\
    Cmd_Args (SetOptions llm opts) = Cmd_Args llm /\
    (forall prompt,
        Encode srv (SetOptions llm opts) ctx prompt = Encode srv llm ctx prompt) /\
    (forall tokens,
        Decode srv (SetOptions llm opts) ctx tokens = Decode srv llm ctx tokens) /\
    (forall input,
        Embedding srv (SetOptions llm opts) ctx input
          = Embedding srv llm ctx input) /\
    (same_sampling (l_Options llm) opts ->
     forall prevContext prompt,
       Predict srv parseDurationMs (SetOptions llm opts) ctx prevContext prompt
         = Predict srv parseDurationMs llm ctx prevContext prompt).
Proof.
  intros json srv pd ctx llm opts.
  split; [reflexivity|]. split; [reflexivity|].
  split; [intros; apply Encode_by_port; reflexivity|].
  split; [intros; apply Decode_by_port; reflexivity|].
  split; [intros; apply Embedding_by_port; reflexivity|].
  intros Hsame prev prompt.
  apply Predict_by_port_and_request; [reflexivity|].
  intros text. unfold predict_request, SetOptions. cbn [l_Options].
  destruct Hsame as (E1 & E2 & E3 & E4 & E5 & E6 & E7 & E8 & E9 & E10 & E11
                     & E12 & E13 & E14 & E15 & E16).
  rewrite E1, E2, E3, E4, E5, E6, E7, E8, E9, E10, E11, E12, E13, E14, E15, E16.
  reflexivity.
Qed.

(** A context of 4096 set after the start does not reach [Predict]. *)
Lemma SetOptions_reaches_sampling_only_witness :
  @Predict Demo.json_table (Demo.server 200 Demo.hi_there_stop)
     Demo.parseDurationMs (SetOptions Demo.runner Samples.larger_context)
     Demo.background [] "Hello"
  = @Predict Demo.json_table (Demo.server 200 Demo.hi_there_stop)
      Demo.parseDurationMs Demo.runner Demo.background [] "Hello".
Proof.
  apply (proj2 (proj2 (proj2 (proj2 (proj2
    (@SetOptions_reaches_sampling_only Demo.json_table
       (Demo.server 200 Demo.hi_there_stop) Demo.parseDurationMs
       Demo.background Demo.runner Samples.larger_context)))))).
  unfold same_sampling. cbn. repeat split.
Defined.

(** ** The command line *)

Lemma follows_here (a b : string) (l : list string) : follows a b (a :: b :: l).
Proof.
  exists [], l. reflexivity.
Qed.

Lemma follows_cons (a b x : string) (l : list string) :
  follows a b l -> follows a b (x :: l).
Proof.
  intros (l1 & l2 & ->). exists (x :: l1), l2. reflexivity.
Qed.

Ltac find_follows :=
  repeat rewrite <- app_assoc; cbn [app];
  repeat first [ apply follows_here | apply follows_cons ].

Ltac find_In :=
  repeat rewrite <- app_assoc; cbn [app In];
  repeat first [ left; reflexivity | right ].

Ltac params_cases :=
  unfold params;
  repeat match goal with
         | |- context [?x >? 0] =>
             destruct (Z.gtb_spec x 0); try lia
         | |- context [if negb ?b then _ else _] => destruct b; cbn [negb]
         | |- context [if ?b then _ else _] => destruct b
         | |- context [match ?l with [] => _ | _ :: _ => _ end] => destruct l
         end;
  try discriminate.

(** X16: the arguments [newLlama] builds carry the model, the context
    size, the two rope frequencies and the batch size after their flags,
    and [--embedding]; a positive [NumGQA] and a positive [NumThread]
    after [--gqa] and [--threads]; the first adapter after [--lora]; and
    [--memory-f32], [--mlock], [--no-mmap], [--numa] when [F16KV] is
    off, [UseMLock] on, [UseMMap] off, [UseNUMA] on. *)
Theorem params_carries_options :
  forall (Sprintf_f : float32 -> string) (model : string)
         (adapters : list string) (opts : Options),
    let ps := params Sprintf_f model adapters opts in
    follows "--model" model ps /\
    follows "--ctx-size" (Itoa (NumCtx opts)) ps /\
    follows "--rope-freq-base" (Sprintf_f (RopeFrequencyBase opts)) ps /\
    follows "--rope-freq-scale" (Sprintf_f (RopeFrequencyScale opts)) ps /\
    follows "--batch-size" (Itoa (NumBatch opts)) ps /\
    In "--embedding" ps /\
    (0 < NumGQA opts -> follows "--gqa" (Itoa (NumGQA opts)) ps) /\
    (forall a others, adapters = a :: others -> follows "--lora" a ps) /\
    (0 < NumThread opts -> follows "--threads" (Itoa (NumThread opts)) ps) /\
    (F16KV opts = false -> In "--memory-f32" ps) /\
    (UseMLock opts = true -> In "--mlock" ps) /\
    (UseMMap opts = false -> In "--no-mmap" ps) /\
    (UseNUMA opts = true -> In "--numa" ps).
Proof.
  intros Sprintf_f model adapters opts ps. subst ps.
  repeat split.
  - params_cases; find_follows.
  - params_cases; find_follows.
  - params_cases; find_follows.
  - params_cases; find_follows.
  - params_cases; find_follows.
  - params_cases; find_In.
  - intros H. params_cases; find_follows.
  - intros a others ->. params_cases; find_follows.
  - intros H. params_cases; find_follows.
  - params_cases; intros Hflag; try discriminate Hflag; find_In.
  - params_cases; intros Hflag; try discriminate Hflag; find_In.
  - params_cases; intros Hflag; try discriminate Hflag; find_In.
  - params_cases; intros Hflag; try discriminate Hflag; find_In.
Qed.

Lemma params_carries_options_witness :
  follows "--threads" "8"
    (params Demo.Sprintf_f "/models/llama.bin" ["/models/lora.bin"]
       Samples.larger_context) /\
  follows "--lora" "/models/lora.bin"
    (params Demo.Sprintf_f "/models/llama.bin" ["/models/lora.bin"]
       Samples.larger_context).
Proof.
  pose proof (params_carries_options Demo.Sprintf_f "/models/llama.bin"
                ["/models/lora.bin"] Samples.larger_context)
    as (_ & _ & _ & _ & _ & _ & _ & Hlora & Hthreads & _).
  split.
  - apply Hthreads. reflexivity.
  - apply (Hlora "/models/lora.bin" []). reflexivity.
Defined.

(** ** [chooseRunner] *)

Section RunnerFacts.

Variable b : Bundle.

(** When no [log.Fatalf] stops it, the loop has copied every file, from
    the build to the temporary directory. *)
Lemma copyFiles_all dir tmpDir files cs :
  copyFiles b dir tmpDir files = (cs, None) ->
  cs = map (fun f => (path_Join b dir f, filepath_Join b tmpDir f)) files.
Proof.
  revert cs. induction files as [|f rest IH]; intros cs H; cbn [copyFiles] in H.
  - inversion H. reflexivity.
  - destruct (embed_Open b _); [discriminate|].
    destruct (os_OpenFile b _); [discriminate|].
    destruct (io_Copy b _ _); [discriminate|].
    destruct (copyFiles b dir tmpDir rest) as [copied fatal] eqn:E.
    inversion H; subst. cbn [map]. rewrite (IH copied eq_refl). reflexivity.
Qed.

(** Stopped or not, the loop copies from the build only. *)
Lemma copyFiles_sources dir tmpDir files :
  Forall (fun c => exists f, fst c = path_Join b dir f)
         (fst (copyFiles b dir tmpDir files)).
Proof.
  induction files as [|f rest IH]; cbn [copyFiles]; [constructor|].
  destruct (embed_Open b _); [constructor|].
  destruct (os_OpenFile b _); [constructor|].
  destruct (io_Copy b _ _); [constructor|].
  destruct (copyFiles b dir tmpDir rest) as [copied fatal].
  cbn [fst] in *. constructor; [exists f; reflexivity|exact IH].
Qed.

(** A message of the loop is not that of the missing executable. *)
Lemma copyFiles_message dir tmpDir files :
  snd (copyFiles b dir tmpDir files) <> Some "llama.cpp executable not found".
Proof.
  induction files as [|f rest IH]; cbn [copyFiles]; [discriminate|].
  destruct (embed_Open b _); [discriminate|].
  destruct (os_OpenFile b _); [discriminate|].
  destruct (io_Copy b _ _); [discriminate|].
  destruct (copyFiles b dir tmpDir rest) as [copied fatal]. exact IH.
Qed.

End RunnerFacts.

(** X17: when the GPU build is embedded, every file [chooseRunner]
    copies comes from it, on every system.  On Linux too: the probe that
    would turn to the CPU build on a machine without GPU cannot fail,
    [CheckVRAM] returning 23000 and no error. *)
Theorem chooseRunner_copies_gpu_build :
  forall (b : Bundle) (gpuPath cpuPath : string),
    embed_Stat b (osPath b gpuPath) = None ->
    Forall (fun c => exists f, fst c = path_Join b (osPath b gpuPath) f)
           (fst (chooseRunner b gpuPath cpuPath)).
Proof.
  intros b gpu cpu Hgpu. unfold chooseRunner, embedded_build.
  destruct (os_MkdirTemp b) as [tmpDir|e]; [|constructor].
  rewrite Hgpu, String.eqb_refl. cbn [CheckVRAM snd].
  assert (H : forall files,
             Forall (fun c => exists f, fst c = path_Join b (osPath b gpu) f)
               (fst (let (copied, o) := copyFiles b (osPath b gpu) tmpDir files in
                     match o with
                     | Some msg => (copied, @Fatalf string msg)
                     | None =>
                         (copied,
                          Returns (if String.eqb (GOOS b) "windows"
                                   then filepath_Join b tmpDir "server.exe"
                                   else filepath_Join b tmpDir "server"))
                     end))).
  { intros files. pose proof (copyFiles_sources b (osPath b gpu) tmpDir files) as S.
    destruct (copyFiles b (osPath b gpu) tmpDir files) as [copied [msg|]];
      exact S. }
  destruct (String.eqb (GOOS b) "windows") eqn:W; [apply (H ["server.exe"])|].
  destruct (String.eqb (GOOS b) "darwin");
    [apply (H ["server"; "ggml-metal.metal"])|].
  destruct (String.eqb (GOOS b) "linux"); apply (H ["server"]).
Qed.

Lemma chooseRunner_copies_gpu_build_witness :
  fst (chooseRunner (Samples.bundle "linux" true) Samples.gpu_dir Samples.cpu_dir)
    = [("llama.cpp/gguf/build/gpu/bin/server", "/tmp/llama-1/server")] /\
  Forall (fun c => exists f,
            fst c = path_Join (Samples.bundle "linux" true)
                      (osPath (Samples.bundle "linux" true) Samples.gpu_dir) f)
         (fst (chooseRunner (Samples.bundle "linux" true)
                 Samples.gpu_dir Samples.cpu_dir)).
Proof.
  split; [reflexivity|].
  apply chooseRunner_copies_gpu_build. reflexivity.
Defined.

(** X18: when [chooseRunner] returns, the path it returns is [server] in
    the temporary directory, [server.exe] on Windows, and that file has
    been copied there from the build that is embedded, the GPU one if it
    is; on Darwin with the GPU build [ggml-metal.metal] has been copied
    next to it; nothing else has been copied. *)
Theorem chooseRunner_returns_copied_server :
  forall (b : Bundle) (gpuPath cpuPath : string)
         (copied : list (string * string)) (runPath : string),
    chooseRunner b gpuPath cpuPath = (copied, Returns runPath) ->
    exists tmpDir dir,
      os_MkdirTemp b = Ok tmpDir /\
      embedded_build b gpuPath cpuPath = Some dir /\
      let exe := if String.eqb (GOOS b) "windows" then "server.exe" else "server" in
      runPath = filepath_Join b tmpDir exe /\
      copied =
        (path_Join b dir exe, runPath) ::
        (if String.eqb (GOOS b) "darwin" && String.eqb dir (osPath b gpuPath)
         then [(path_Join b dir "ggml-metal.metal",
                filepath_Join b tmpDir "ggml-metal.metal")]
         else []).
Proof.
  intros b gpu cpu copied runPath H. unfold chooseRunner in H.
  destruct (os_MkdirTemp b) as [tmpDir|e]; [|discriminate].
  destruct (embedded_build b gpu cpu) as [dir|] eqn:Hdir; [|discriminate].
  exists tmpDir, dir. split; [reflexivity|]. split; [reflexivity|].
  cbn [CheckVRAM snd] in H.
  destruct (String.eqb (GOOS b) "windows") eqn:W.
  - apply String.eqb_eq in W. rewrite W in *. cbn [String.eqb Ascii.eqb andb] in *.
    destruct (copyFiles b dir tmpDir ["server.exe"]) as [cs [msg|]] eqn:E;
      [discriminate|].
    inversion H; subst. cbn. split; [reflexivity|].
    apply (copyFiles_all _ _ _ _ _ E).
  - destruct (String.eqb (GOOS b) "darwin") eqn:D.
    + destruct (String.eqb dir (osPath b gpu)) eqn:G; cbn [andb app] in *.
      * destruct (copyFiles b dir tmpDir ["server"; "ggml-metal.metal"])
          as [cs [msg|]] eqn:E; [discriminate|].
        inversion H; subst. cbn. split; [reflexivity|].
        apply (copyFiles_all _ _ _ _ _ E).
      * destruct (copyFiles b dir tmpDir ["server"]) as [cs [msg|]] eqn:E;
          [discriminate|].
        inversion H; subst. cbn. split; [reflexivity|].
        apply (copyFiles_all _ _ _ _ _ E).
    + cbn [andb].
      assert (E' : exists cs, copyFiles b dir tmpDir ["server"] = (cs, None) /\
                              (cs, @Returns string (filepath_Join b tmpDir "server"))
                                = (copied, Returns runPath)).
      { destruct (String.eqb (GOOS b) "linux");
          destruct (copyFiles b dir tmpDir ["server"]) as [cs [msg|]];
          try discriminate; exists cs; split; auto. }
      destruct E' as (cs & E & Hret). inversion Hret; subst.
      split; [reflexivity|]. apply (copyFiles_all _ _ _ _ _ E).
Qed.

Lemma chooseRunner_returns_copied_server_witness :
  exists tmpDir dir,
    os_MkdirTemp (Samples.bundle "darwin" true) = Ok tmpDir /\
    embedded_build (Samples.bundle "darwin" true) Samples.gpu_dir Samples.cpu_dir
      = Some dir /\
    "/tmp/llama-1/server" = filepath_Join (Samples.bundle "darwin" true) tmpDir "server" /\
    [("llama.cpp/gguf/build/gpu/bin/server", "/tmp/llama-1/server");
     ("llama.cpp/gguf/build/gpu/bin/ggml-metal.metal",
      "/tmp/llama-1/ggml-metal.metal")]
    = (path_Join (Samples.bundle "darwin" true) dir "server", "/tmp/llama-1/server") ::
      (if String.eqb "darwin" "darwin" && String.eqb dir Samples.gpu_dir
       then [(path_Join (Samples.bundle "darwin" true) dir "ggml-metal.metal",
              filepath_Join (Samples.bundle "darwin" true) tmpDir "ggml-metal.metal")]
       else []).
Proof.
  apply (chooseRunner_returns_copied_server (Samples.bundle "darwin" true)
           Samples.gpu_dir Samples.cpu_dir).
  reflexivity.
Defined.

(** X19: with a temporary directory at hand, [chooseRunner] ends the
    program with ["llama.cpp executable not found"] exactly when neither
    the GPU build nor the CPU build is embedded, and it has copied
    nothing then. *)
Theorem chooseRunner_fatal_without_build :
  forall (b : Bundle) (gpuPath cpuPath tmpDir : string),
    os_MkdirTemp b = Ok tmpDir ->
    (chooseRunner b gpuPath cpuPath
       = ([], Fatalf "llama.cpp executable not found")
     <-> embed_Stat b (osPath b gpuPath) <> None /\
         embed_Stat b (osPath b cpuPath) <> None) /\
    (snd (chooseRunner b gpuPath cpuPath) = Fatalf "llama.cpp executable not found"
     -> fst (chooseRunner b gpuPath cpuPath) = []).
Proof.
  intros b gpu cpu tmpDir Htmp.
  assert (Hsome : forall dir,
             embedded_build b gpu cpu = Some dir ->
             snd (chooseRunner b gpu cpu)
               <> Fatalf "llama.cpp executable not found").
  { intros dir Hdir. unfold chooseRunner. rewrite Htmp, Hdir.
    destruct (if String.eqb (GOOS b) "windows" then _ else _) as [files dir'].
    pose proof (copyFiles_message b dir' tmpDir files) as Hmsg.
    destruct (copyFiles b dir' tmpDir files) as [cs [msg|]]; cbn [snd] in *;
      [congruence|discriminate]. }
  assert (Hnone : embedded_build b gpu cpu = None ->
                  chooseRunner b gpu cpu
                    = ([], Fatalf "llama.cpp executable not found")).
  { intros Hdir. unfold chooseRunner. rewrite Htmp, Hdir. reflexivity. }
  assert (Hiff : embedded_build b gpu cpu = None <->
                 embed_Stat b (osPath b gpu) <> None /\
                 embed_Stat b (osPath b cpu) <> None).
  { unfold embedded_build.
    destruct (embed_Stat b (osPath b gpu)), (embed_Stat b (osPath b cpu));
      split; try discriminate; try (intros [? ?]; congruence);
      try (intros _; split; discriminate); reflexivity. }
  split; [split|].
  - intros H. apply Hiff.
    destruct (embedded_build b gpu cpu) as [dir|] eqn:Hdir; [|reflexivity].
    exfalso. apply (Hsome dir eq_refl). rewrite H. reflexivity.
  - intros H. apply Hnone, Hiff, H.
  - intros H.
    destruct (embedded_build b gpu cpu) as [dir|] eqn:Hdir.
    + exfalso. apply (Hsome dir eq_refl H).
    + rewrite (Hnone eq_refl). reflexivity.
Qed.

Lemma chooseRunner_fatal_without_build_witness :
  chooseRunner (Samples.bundle "linux" false) Samples.gpu_dir "llama.cpp/none"
    = ([], Fatalf "llama.cpp executable not found")
  <-> embed_Stat (Samples.bundle "linux" false)
        (osPath (Samples.bundle "linux" false) Samples.gpu_dir) <> None /\
      embed_Stat (Samples.bundle "linux" false)
        (osPath (Samples.bundle "linux" false) "llama.cpp/none") <> None.
Proof.
  apply (proj1 (chooseRunner_fatal_without_build (Samples.bundle "linux" false)
                  Samples.gpu_dir "llama.cpp/none" "/tmp/llama-1" eq_refl)).
Defined.
